(** * gulsoyblog: permission and persistence logic of the posts application

    A shallow embedding of [posts/models.py], [posts/forms.py] and
    [posts/views.py].  Tables are finite maps from primary key to row, the
    request carries the user the authentication middleware attached to it,
    and each class-based view is a function from the request and the store
    to a reply and the store after the request. *)

From Stdlib Require Import Ascii.
From stdpp Require Import gmap strings list sorting pretty.

Open Scope string_scope.
Open Scope Z_scope.

(** ** Users

    [request.user] is either the anonymous user or a row of the user model.
    The anonymous user has [is_authenticated], [is_staff] and [is_superuser]
    all false. *)

Record User := {
  user_id : Z;
  user_is_staff : bool;
  user_is_superuser : bool;
}.

Inductive RequestUser :=
  | AnonymousUser
  | AuthenticatedUser (u : User).

Definition is_authenticated (user : RequestUser) : bool :=
  match user with AnonymousUser => false | AuthenticatedUser _ => true end.

Definition is_staff (user : RequestUser) : bool :=
  match user with AnonymousUser => false | AuthenticatedUser u => user_is_staff u end.

Definition is_superuser (user : RequestUser) : bool :=
  match user with AnonymousUser => false | AuthenticatedUser u => user_is_superuser u end.

(** [request.user == post.author]: model instances compare by primary key;
    the anonymous user equals no row. *)
Definition user_eq (user : RequestUser) (author_id : Z) : bool :=
  match user with
  | AnonymousUser => false
  | AuthenticatedUser u => bool_decide (user_id u = author_id)
  end.

(** [request.user in post.shared_with.all()]. *)
Definition user_in (user : RequestUser) (rows : gset Z) : bool :=
  match user with
  | AnonymousUser => false
  | AuthenticatedUser u => bool_decide (user_id u ∈ rows)
  end.

(** ** posts/models.py *)

(** [on_delete] options of a foreign key. *)
Inductive OnDelete := CASCADE | PROTECT | DO_NOTHING.

Record Post := {
  title : string;            (* CharField(max_length=200) *)
  content : string;          (* TextField() *)
  author : Z;                (* ForeignKey(AUTH_USER_MODEL) *)
  date_posted : Z;           (* DateTimeField(auto_now_add=True) *)
  is_public : bool;          (* BooleanField(default=True) *)
  shared_with : gset Z;      (* ManyToManyField(AUTH_USER_MODEL, blank=True) *)
}.

Record Document := {
  post : Z;                  (* ForeignKey(Post, related_name='documents') *)
  file : string;             (* FileField(upload_to='post_documents/'): stored name *)
  description : string;      (* CharField(max_length=255, blank=True) *)
}.

Definition Post_title_max_length : nat := 200.
Definition Document_description_max_length : nat := 255.
Definition Document_file_upload_to : string := "post_documents/".
Definition Document_post_on_delete : OnDelete := CASCADE.

Global Instance Post_eq_dec : EqDecision Post.
Proof. solve_decision. Defined.
Global Instance Document_eq_dec : EqDecision Document.
Proof. solve_decision. Defined.

(** The relational store: one finite map per table, keyed by primary key. *)
Record DB := {
  users : gmap Z User;
  posts : gmap Z Post;
  documents : gmap Z Document;
  post_seq : Z;              (* highest post key ever given out *)
  document_seq : Z;          (* highest document key ever given out *)
}.

(** The key an [AutoField] gives a new row on the engine the settings
    name (sqlite3, whose integer primary keys are AUTOINCREMENT): one more
    than every key the table holds or has ever given out, so 1 on a table
    that was never used and never a key that was used before. *)
Definition max_key {A : Type} (table : gmap Z A) : Z :=
  foldr Z.max 0 (map_to_list table).*1.

Definition next_pk {A : Type} (seq : Z) (table : gmap Z A) : Z :=
  1 + Z.max seq (max_key table).

(** A model instance is a row together with its primary key. *)
Abbreviation PostObj := (Z * Post)%type.

(** [get_object()] / [get_object_or_404]: [None] stands for the raised
    [Http404]. *)
Definition get_object (db : DB) (pk : Z) : option Post := posts db !! pk.

(** ** Replies *)

Inductive Level := error | success.

Inductive Url :=
  | login
  | post_list
  | post_detail (pk : Z).

Inductive FormErrors :=
  | post_form_errors
  | document_formset_errors.

Inductive HttpResponse :=
  | Http404
  | redirect (to : Url)
  | render_post_list (object_list : list PostObj)
  | render_post_detail (object : PostObj)
  | render_post_form (errors : option FormErrors)
  | render_post_confirm_delete (object : PostObj)
  | HttpResponseServerError
  | HttpResponseBadRequest
  | HttpResponseNotAllowed
  | HttpResponseAllow
  | HttpResponseOctetStream (body : list Byte.byte) (content_disposition : string).

(** A reply is the response together with the messages queued on the
    request by [messages.error] / [messages.success]. *)
Record Reply := {
  response : HttpResponse;
  flash : list (Level * string);
}.

Definition reply (r : HttpResponse) : Reply := {| response := r; flash := [] |}.
Definition reply_with (l : Level) (m : string) (r : HttpResponse) : Reply :=
  {| response := r; flash := [(l, m)] |}.

(** The request method; [OTHER] is any verb outside the view's
    [http_method_names]. *)
Inductive Method :=
  | GET | POST | PUT | PATCH | DELETE | HEAD | OPTIONS | TRACE | OTHER.

(** ** PostDetailView *)

Module PostDetailView.

Definition test_func (user : RequestUser) (post : Post) : bool :=
  if is_public post then true
  else if is_authenticated user then
    if user_eq user (author post) then true
    else if user_in user (shared_with post) then true
    else if is_superuser user then true
    else false
  else false.

Definition handle_no_permission (user : RequestUser) : Reply :=
  reply_with error "You do not have permission to view this post."
    (if negb (is_authenticated user) then redirect login
     else redirect post_list).

(** [UserPassesTestMixin.dispatch] followed by [DetailView.get]. *)
Definition dispatch (user : RequestUser) (pk : Z) (db : DB) : Reply :=
  match get_object db pk with
  | None => reply Http404
  | Some post =>
      if test_func user post then reply (render_post_detail (pk, post))
      else handle_no_permission user
  end.

End PostDetailView.

(** ** PostListView *)

Module PostListView.

(** [ordering = ['-date_posted']]: newest first. *)
Definition newer_first (a b : PostObj) : Prop :=
  date_posted b.2 ≤ date_posted a.2.

Global Instance newer_first_dec : RelDecision newer_first.
Proof. intros a b. unfold newer_first. apply _. Defined.

Definition order_by_date_posted_desc (rows : list PostObj) : list PostObj :=
  merge_sort newer_first rows.

(** The join the ORM builds for a filter that mentions [shared_with]:
    every post is paired with each row of its sharing relation, or with
    NULL when it has none. *)
Definition left_join_shared_with (rows : list PostObj) : list (PostObj * option Z) :=
  rows ≫= λ o,
    match elements (shared_with o.2) with
    | [] => [(o, None)]
    | us => (λ u, (o, Some u)) <$> us
    end.

(** [Q(is_public=True) | Q(shared_with=user)] on a joined row. *)
Definition Q_public_or_shared (u : User) (row : PostObj * option Z) : bool :=
  is_public row.1.2 || bool_decide (row.2 = Some (user_id u)).

(** [.distinct()]: the select list holds the post columns only. *)
Definition distinct (rows : list (PostObj * option Z)) : list PostObj :=
  remove_dups (fst <$> rows).

Definition get_queryset (u : User) (db : DB) : list PostObj :=
  if user_is_superuser u then
    order_by_date_posted_desc (map_to_list (posts db))
  else
    order_by_date_posted_desc
      (distinct
         (filter (λ row, Q_public_or_shared u row = true)
            (left_join_shared_with (map_to_list (posts db))))).

(** [LoginRequiredMixin.dispatch] followed by [ListView.get]; the view
    keeps the mixin's own [handle_no_permission], which sends an
    anonymous caller to the login page. *)
Definition dispatch (user : RequestUser) (db : DB) : Reply :=
  match user with
  | AnonymousUser => reply (redirect login)
  | AuthenticatedUser u => reply (render_post_list (get_queryset u db))
  end.

End PostListView.

(** ** download_document *)

(** [str.rfind]: the highest index at which [c] occurs, or [-1]. *)
Fixpoint rfind (c : ascii) (s : string) : Z :=
  match s with
  | EmptyString => -1
  | String a rest =>
      let r := rfind c rest in
      if bool_decide (0 ≤ r) then 1 + r
      else if bool_decide (a = c) then 0 else -1
  end.

(** The slice [s[i:]]. *)
Fixpoint slice_from (i : nat) (s : string) : string :=
  match i, s with
  | O, _ => s
  | S _, EmptyString => EmptyString
  | S j, String _ rest => slice_from j rest
  end.

(** [os.path.basename] on a POSIX path. *)
Definition basename (p : string) : string :=
  let i := rfind "/"%char p + 1 in
  slice_from (Z.to_nat i) p.

(** *** The path helpers of [posixpath] that the storage goes through *)

(** [s.startswith(prefix)]. *)
Fixpoint startswith (s prefix : string) : bool :=
  match prefix, s with
  | EmptyString, _ => true
  | String a prefix', String b s' => bool_decide (a = b) && startswith s' prefix'
  | String _ _, EmptyString => false
  end.

(** [s.endswith(c)] for one character. *)
Fixpoint endswith_char (s : string) (c : ascii) : bool :=
  match s with
  | EmptyString => false
  | String a EmptyString => bool_decide (a = c)
  | String _ rest => endswith_char rest c
  end.

(** [str.split(sep)] for a one-character separator: never empty. *)
Fixpoint split (sep : ascii) (s : string) : list string :=
  match s with
  | EmptyString => [EmptyString]
  | String a rest =>
      if bool_decide (a = sep) then EmptyString :: split sep rest
      else
        match split sep rest with
        | [] => [String a EmptyString]
        | x :: xs => String a x :: xs
        end
  end.

(** [sep.join(l)]. *)
Fixpoint str_join (sep : string) (l : list string) : string :=
  match l with
  | [] => EmptyString
  | x :: rest =>
      match rest with
      | [] => x
      | _ :: _ => x +:+ sep +:+ str_join sep rest
      end
  end.

(** [posixpath.join(a, b)]. *)
Definition posix_join (a b : string) : string :=
  if startswith b "/" then b
  else if bool_decide (a = "") || endswith_char a "/"%char then a +:+ b
  else a +:+ "/" +:+ b.

(** One turn of the loop of [posixpath.normpath] over the components. *)
Definition normpath_step (initial_slashes : nat) (new_comps : list string)
    (comp : string) : list string :=
  if bool_decide (comp = "") || bool_decide (comp = ".") then new_comps
  else if negb (bool_decide (comp = ".."))
          || (bool_decide (initial_slashes = 0%nat) && bool_decide (new_comps = []))
          || bool_decide (last new_comps = Some "..")
  then (new_comps ++ [comp])%list
  else removelast new_comps.

(** [posixpath.normpath]. *)
Definition normpath (path : string) : string :=
  if bool_decide (path = "") then "."
  else
    let initial_slashes :=
      if startswith path "/" then
        if startswith path "//" && negb (startswith path "///") then 2%nat
        else 1%nat
      else 0%nat in
    let comps := foldl (normpath_step initial_slashes) [] (split "/"%char path) in
    let joined :=
      match initial_slashes with
      | 0%nat => ""
      | 1%nat => "/"
      | _ => "//"
      end +:+ str_join "/" comps in
    if bool_decide (joined = "") then "." else joined.

(** The slice [s[:i]]. *)
Fixpoint slice_to (i : nat) (s : string) : string :=
  match i, s with
  | O, _ => EmptyString
  | S _, EmptyString => EmptyString
  | S j, String a rest => String a (slice_to j rest)
  end.

(** [s.rstrip(c)] for one character. *)
Fixpoint rstrip_char (c : ascii) (s : string) : string :=
  match s with
  | EmptyString => EmptyString
  | String a rest =>
      let r := rstrip_char c rest in
      if bool_decide (r = "") && bool_decide (a = c) then EmptyString
      else String a r
  end.

Fixpoint all_char (c : ascii) (s : string) : bool :=
  match s with
  | EmptyString => true
  | String a rest => bool_decide (a = c) && all_char c rest
  end.

(** [posixpath.dirname]. *)
Definition dirname (p : string) : string :=
  let head := slice_to (Z.to_nat (rfind "/"%char p + 1)) p in
  if negb (bool_decide (head = "")) && negb (all_char "/"%char head)
  then rstrip_char "/"%char head
  else head.

(** What [document.file.path] can raise. *)
Inductive PathError := ValueError | SuspiciousFileOperation.

(** [django.utils._os.safe_join] with one path.  Both arguments of
    [abspath] are absolute here whenever [base] is, and [abspath] of an
    absolute path is [normpath]. *)
Definition safe_join (base name : string) : PathError + string :=
  let final_path := normpath (posix_join base name) in
  let base_path := normpath base in
  if negb (startswith final_path (base_path +:+ "/"))
     && negb (bool_decide (final_path = base_path))
     && negb (bool_decide (dirname base_path = base_path))
  then inl SuspiciousFileOperation
  else inr final_path.

(** The media storage as the view sees it: what is at each path that
    exists, a regular file with its bytes or a directory. *)
Inductive FsNode :=
  | RegularFile (content : list Byte.byte)
  | Directory.

Abbreviation FileSystem := (gmap string FsNode).

Section download.

(** [settings.MEDIA_ROOT].  The settings build it from the resolved
    [BASE_DIR], so it is an absolute path, and the storage's [location],
    its [abspath], is its [normpath]. *)
Variable MEDIA_ROOT : string.

Definition storage_location : string := normpath MEDIA_ROOT.

(** [document.file.path]: [ValueError] when the row has no file name,
    otherwise the storage's [path(name)]. *)
Definition file_path (document : Document) : PathError + string :=
  if bool_decide (file document = "") then inl ValueError
  else safe_join storage_location (file document).

Definition download_document (user : RequestUser) (pk : Z)
    (db : DB) (fs : FileSystem) : Reply :=
  match documents db !! pk with
  | None => reply Http404
  | Some document =>
      match posts db !! post document with
      | None => reply HttpResponseServerError (* Post.DoesNotExist *)
      | Some post_row =>
          if negb (is_authenticated user) then
            reply_with error "You need to be logged in to download documents."
              (redirect login)
          else if negb (is_public post_row
                        || user_eq user (author post_row)
                        || user_in user (shared_with post_row)
                        || is_superuser user) then
            reply_with error "You do not have permission to download this document."
              (redirect (post_detail (post document)))
          else
            match file_path document with
            | inl ValueError => reply HttpResponseServerError
            | inl SuspiciousFileOperation => reply HttpResponseBadRequest
            | inr path =>
                match fs !! path with
                | Some (RegularFile payload) =>
                    reply (HttpResponseOctetStream payload
                             ("inline; filename=" +:+ basename path))
                | Some Directory =>
                    reply HttpResponseServerError (* IsADirectoryError *)
                | None =>
                    reply_with error "File not found."
                      (redirect (post_detail (post document)))
                end
            end
      end
  end.

End download.

(** A path component that [normpath] keeps as it is. *)
Definition clean_segment (s : string) : bool :=
  negb (bool_decide (s = "")) && negb (bool_decide (s = "."))
  && negb (bool_decide (s = "..")).

(** A relative path made of such components, like the names the storage
    gives to uploads. *)
Definition relative_clean (name : string) : bool :=
  forallb clean_segment (split "/"%char name).

(** An absolute path made of such components, like [MEDIA_ROOT]. *)
Definition absolute_clean (root : string) : bool :=
  match root with
  | EmptyString => false
  | String a rest => bool_decide (a = "/"%char) && relative_clean rest
  end.

(** ** transaction.atomic

    A [with] block is left by running off its end (handing on what it
    bound), by a [return] of the enclosing function, or by an exception.
    [Atomic.__exit__] rolls the store back only in the last case; the other
    two commit. *)

Inductive Exn := IntegrityError | ProtectedError.

Inductive Exit (A R : Type) :=
  | FallThrough (bound : A)
  | Return (r : R)
  | Raise (e : Exn).
Arguments FallThrough {A R} bound.
Arguments Return {A R} r.
Arguments Raise {A R} e.

Definition transaction_atomic {A R : Type} (body : DB → Exit A R * DB) (db : DB)
    : Exit A R * DB :=
  match body db with
  | (Raise e, _) => (Raise e, db)
  | (FallThrough a, db') => (FallThrough a, db')
  | (Return r, db') => (Return r, db')
  end.

(** ** posts/forms.py

    Strings are read as text in which every element is one character of
    the ASCII range; the theorems that depend on how a field cleans its
    value say so.  The checks are those of the form fields the model
    declarations give rise to. *)

(** The ASCII characters [str.strip] removes. *)
Definition is_space (c : ascii) : bool :=
  let n := nat_of_ascii c in
  (bool_decide (9 ≤ n)%nat && bool_decide (n ≤ 13)%nat)
  || (bool_decide (28 ≤ n)%nat && bool_decide (n ≤ 32)%nat).

Fixpoint lstrip (s : string) : string :=
  match s with
  | EmptyString => EmptyString
  | String a rest => if is_space a then lstrip rest else s
  end.

Fixpoint rstrip (s : string) : string :=
  match s with
  | EmptyString => EmptyString
  | String a rest =>
      let r := rstrip rest in
      if bool_decide (r = "") && is_space a then EmptyString else String a r
  end.

(** [str.strip()]. *)
Definition strip (s : string) : string := rstrip (lstrip s).

Fixpoint has_nul (s : string) : bool :=
  match s with
  | EmptyString => false
  | String a rest => bool_decide (a = "000"%char) || has_nul rest
  end.

(** Every character is below 128. *)
Fixpoint ascii_text (s : string) : bool :=
  match s with
  | EmptyString => true
  | String a rest => bool_decide (nat_of_ascii a < 128)%nat && ascii_text rest
  end.

(** [forms.CharField.clean]: the value is stripped; an empty value is an
    error when the field is required and passes otherwise; a value that is
    not empty must have no NUL character and fit [max_length].  [None]
    stands for the [ValidationError]. *)
Definition CharField_clean (required : bool) (max_length : option nat)
    (raw : string) : option string :=
  let value := strip raw in
  if bool_decide (value = "") then
    if required then None else Some value
  else if has_nul value then None
  else
    match max_length with
    | Some n => if bool_decide (String.length value ≤ n)%nat then Some value else None
    | None => Some value
    end.

Record PostFormData := {
  data_title : string;
  data_content : string;
  data_is_public : bool;
  data_shared_with : list Z;
}.

Module PostForm.

(** [__init__]: the choices of [shared_with] are all users but the
    requesting one. *)
Definition shared_with_queryset (u : User) (db : DB) : gset Z :=
  dom (users db) ∖ {[ user_id u ]}.

Definition clean_title (data : PostFormData) : option string :=
  CharField_clean true (Some Post_title_max_length) (data_title data).

Definition clean_content (data : PostFormData) : option string :=
  CharField_clean true None (data_content data).

Definition is_valid (u : User) (db : DB) (data : PostFormData) : bool :=
  bool_decide (is_Some (clean_title data))
  && bool_decide (is_Some (clean_content data))
  && forallb (λ k, bool_decide (k ∈ shared_with_queryset u db))
       (data_shared_with data).

(** [save()] of a form bound to no instance (create): the first call
    inserts a row under a new primary key.  The row holds the cleaned
    values. *)
Definition new_instance (u : User) (now : Z) (data : PostFormData) : Post :=
  {| title := strip (data_title data);
     content := strip (data_content data);
     author := user_id u;
     date_posted := now;
     is_public := data_is_public data;
     shared_with := list_to_set (data_shared_with data) |}.

(** The instance of a form bound to an existing row (update), after
    cleaning: the four form fields are overwritten, the rest kept. *)
Definition updated_instance (old : Post) (data : PostFormData) : Post :=
  {| title := strip (data_title data);
     content := strip (data_content data);
     author := author old;
     date_posted := date_posted old;
     is_public := data_is_public data;
     shared_with := list_to_set (data_shared_with data) |}.

(** [instance.save()]: INSERT under the next key when the instance has no
    primary key yet, UPDATE of its row otherwise.  Returns the primary
    key. *)
Definition save (instance_pk : option Z) (instance : Post) (db : DB) : Z * DB :=
  match instance_pk with
  | Some pk =>
      (pk, {| users := users db;
              posts := <[pk := instance]> (posts db);
              documents := documents db;
              post_seq := post_seq db;
              document_seq := document_seq db |})
  | None =>
      let pk := next_pk (post_seq db) (posts db) in
      (pk, {| users := users db;
              posts := <[pk := instance]> (posts db);
              documents := documents db;
              post_seq := pk;
              document_seq := document_seq db |})
  end.

End PostForm.

Record UploadedFile := {
  upload_name : string;
  upload_content : list Byte.byte;
}.

(** The length the [FileField] allows a name (its default). *)
Definition Document_file_max_length : nat := 100.

(** One form of the inline formset.  [data_id] is the hidden primary-key
    field: [Some] on a form that edits an existing document (an initial
    form), [None] on an extra form.  [data_DELETE] is the checkbox
    [can_delete=True] adds.  The list of forms is the one a parsed request
    with a consistent management form gives. *)
Record DocumentFormData := {
  data_id : option Z;
  data_file : option UploadedFile;
  data_description : string;
  data_DELETE : bool;
}.

Module DocumentFormSet.

(** An extra form left blank is skipped by validation and by [save]. *)
Definition has_changed (f : DocumentFormData) : bool :=
  bool_decide (is_Some (data_file f))
  || negb (bool_decide (strip (data_description f) = "")).

Definition description_ok (f : DocumentFormData) : bool :=
  bool_decide (is_Some (CharField_clean false
                          (Some Document_description_max_length)
                          (data_description f))).

(** [forms.FileField.to_python] on an upload: the name must not be empty
    nor longer than [max_length], the file must not be empty. *)
Definition upload_ok (up : UploadedFile) : bool :=
  negb (bool_decide (upload_name up = ""))
  && bool_decide (String.length (upload_name up) ≤ Document_file_max_length)%nat
  && negb (bool_decide (upload_content up = [])).

(** [instance] is the post the formset was built for: [None] in the
    create view (no documents to edit), the edited post in the update
    view. *)
Definition form_is_valid (instance : option Z) (db : DB) (f : DocumentFormData) : bool :=
  match data_id f with
  | Some k =>
      match documents db !! k, instance with
      | Some d, Some pk =>
          bool_decide (post d = pk) && description_ok f
          && match data_file f with
             | Some up => upload_ok up
             | None => true
             end
      | _, _ => false
      end
  | None =>
      if has_changed f then
        match data_file f with
        | Some up => upload_ok up
        | None => false
        end && description_ok f
      else true
  end.

(** The existing rows the forms that are not marked for deletion edit. *)
Definition bound_ids (forms : list DocumentFormData) : list Z :=
  omap (λ f, if data_DELETE f then None else data_id f) forms.

(** Forms marked for deletion are not validated; [validate_unique]
    rejects two forms that edit the same row. *)
Definition is_valid (instance : option Z) (db : DB) (forms : list DocumentFormData) : bool :=
  forallb (λ f, data_DELETE f || form_is_valid instance db f) forms
  && bool_decide (NoDup (bound_ids forms)).

(** The name a saved upload gets when the storage takes the upload's name
    as it is (see [plain_upload_name]).  Writing the payload to the media
    storage, and what the storage does with other names or on a name
    clash, are outside the tables and are left out. *)
Definition stored_name (up : UploadedFile) : string :=
  Document_file_upload_to +:+ upload_name up.

Definition set_documents (db : DB) (docs : gmap Z Document) : DB :=
  {| users := users db; posts := posts db; documents := docs;
     post_seq := post_seq db; document_seq := document_seq db |}.

(** Only documents of the formset's own post are bound to its forms. *)
Definition save_existing (pk : Z) (db : DB) (f : DocumentFormData) : DB :=
  match data_id f with
  | None => db
  | Some k =>
      match documents db !! k with
      | None => db
      | Some d =>
          if negb (bool_decide (post d = pk)) then db
          else if data_DELETE f then set_documents db (delete k (documents db))
          else
            set_documents db
              (<[k := {| post := pk;
                         file := match data_file f with
                                 | Some up => stored_name up
                                 | None => file d
                                 end;
                         description := strip (data_description f) |}]> (documents db))
      end
  end.

Definition save_new (pk : Z) (db : DB) (f : DocumentFormData) : DB :=
  match data_id f, data_file f with
  | None, Some up =>
      if data_DELETE f then db
      else
        let k := next_pk (document_seq db) (documents db) in
        {| users := users db; posts := posts db;
           documents :=
             <[k := {| post := pk; file := stored_name up;
                       description := strip (data_description f) |}]> (documents db);
           post_seq := post_seq db;
           document_seq := k |}
  | _, _ => db
  end.

(** [save()]: [save_existing_objects()] then [save_new_objects()], with
    [formset.instance] set to the saved post. *)
Definition save (pk : Z) (forms : list DocumentFormData) (db : DB) : DB :=
  foldl (save_new pk) (foldl (save_existing pk) db forms) forms.

End DocumentFormSet.

(** ** The request *)

Record Request := {
  user : RequestUser;
  method : Method;
  POST_post : PostFormData;               (* the post fields of the body *)
  POST_documents : list DocumentFormData; (* the formset part of the body *)
  now : Z;                                (* the clock read by auto_now_add *)
}.

(** A character [get_valid_name] keeps: a letter, a digit, [-], [_]
    or [.]. *)
Definition plain_char (c : ascii) : bool :=
  let n := nat_of_ascii c in
  (bool_decide (48 ≤ n)%nat && bool_decide (n ≤ 57)%nat)
  || (bool_decide (65 ≤ n)%nat && bool_decide (n ≤ 90)%nat)
  || (bool_decide (97 ≤ n)%nat && bool_decide (n ≤ 122)%nat)
  || bool_decide (n = 45)%nat || bool_decide (n = 46)%nat
  || bool_decide (n = 95)%nat.

Fixpoint all_plain (s : string) : bool :=
  match s with
  | EmptyString => true
  | String a rest => plain_char a && all_plain rest
  end.

(** An upload name the storage stores unchanged under [upload_to]: made
    of such characters, not a dot name, and short enough to fit the
    column with the directory in front. *)
Definition plain_upload_name (name : string) : bool :=
  all_plain name && clean_segment name
  && bool_decide (String.length name ≤ 85)%nat.

(** A submission on which the model's reading of the fields and of the
    storage is exact: the requesting user is a row of the user table, the
    texts are ASCII, and the uploads have plain names. *)
Definition plain_submission (u : User) (request : Request) (db : DB) : bool :=
  bool_decide (is_Some (users db !! user_id u))
  && ascii_text (data_title (POST_post request))
  && ascii_text (data_content (POST_post request))
  && forallb (λ f, ascii_text (data_description f)
                   && match data_file f with
                      | Some up => plain_upload_name (upload_name up)
                      | None => true
                      end)
       (POST_documents request).

(** ** PostCreateView *)

Module PostCreateView.

Definition test_func (user : RequestUser) : bool := is_staff user.

Definition handle_no_permission : Reply :=
  reply_with error "You do not have permission to create posts."
    (redirect post_list).

Definition form_invalid (errors : FormErrors) : Reply :=
  reply (render_post_form (Some errors)).

Definition form_valid (u : User) (request : Request) (db : DB) : Reply * DB :=
  let instance := PostForm.new_instance u (now request) (POST_post request) in
  let document_formset := POST_documents request in
  let block :=
    transaction_atomic (λ db0,
      let '(object, db1) := PostForm.save None instance db0 in
      if DocumentFormSet.is_valid None db1 document_formset then
        (FallThrough object, DocumentFormSet.save object document_formset db1)
      else
        (Return (form_invalid document_formset_errors), db1)) db in
  match block with
  | (Return r, db') => (r, db')
  | (FallThrough object, db') =>
      (* super().form_valid(form) saves the form's instance once more,
         then redirects to success_url *)
      (reply_with success "Post created successfully!" (redirect post_list),
       (PostForm.save (Some object) instance db').2)
  | (Raise _, db') => (reply HttpResponseServerError, db')
  end.

(** [LoginRequiredMixin.dispatch], [UserPassesTestMixin.dispatch], then
    [get] or [post] of the edit view. *)
Definition dispatch (request : Request) (db : DB) : Reply * DB :=
  match user request with
  | AnonymousUser => (handle_no_permission, db)
  | AuthenticatedUser u =>
      if negb (test_func (user request)) then (handle_no_permission, db)
      else
        match method request with
        | GET | HEAD => (reply (render_post_form None), db)
        | POST =>
            if PostForm.is_valid u db (POST_post request) then
              form_valid u request db
            else (form_invalid post_form_errors, db)
        | PUT =>
            (* put() calls post(); the body of a PUT is not parsed into
               request.POST, so the form is bound to no data *)
            (form_invalid post_form_errors, db)
        | OPTIONS => (reply HttpResponseAllow, db)
        | PATCH | DELETE | TRACE | OTHER => (reply HttpResponseNotAllowed, db)
        end
  end.

End PostCreateView.

(** ** PostUpdateView *)

Module PostUpdateView.

Definition test_func (user : RequestUser) (post : Post) : bool :=
  user_eq user (author post) || is_superuser user.

Definition handle_no_permission (pk : Z) : Reply :=
  reply_with error "You do not have permission to edit this post."
    (redirect (post_detail pk)).

Definition form_invalid (errors : FormErrors) : Reply :=
  reply (render_post_form (Some errors)).

Definition form_valid (pk : Z) (old : Post) (request : Request) (db : DB)
    : Reply * DB :=
  let instance := PostForm.updated_instance old (POST_post request) in
  let document_formset := POST_documents request in
  let block :=
    transaction_atomic (λ db0,
      let '(object, db1) := PostForm.save (Some pk) instance db0 in
      if DocumentFormSet.is_valid (Some pk) db1 document_formset then
        (FallThrough object, DocumentFormSet.save object document_formset db1)
      else
        (Return (form_invalid document_formset_errors), db1)) db in
  match block with
  | (Return r, db') => (r, db')
  | (FallThrough object, db') =>
      (reply_with success "Post updated successfully!"
         (redirect (post_detail object)),
       (PostForm.save (Some object) instance db').2)
  | (Raise _, db') => (reply HttpResponseServerError, db')
  end.

Definition dispatch (request : Request) (pk : Z) (db : DB) : Reply * DB :=
  match user request with
  | AnonymousUser => (handle_no_permission pk, db)
  | AuthenticatedUser u =>
      match get_object db pk with
      | None => (reply Http404, db)
      | Some post =>
          if negb (test_func (user request) post) then
            (handle_no_permission pk, db)
          else
            match method request with
            | GET | HEAD => (reply (render_post_form None), db)
            | POST =>
                if PostForm.is_valid u db (POST_post request) then
                  form_valid pk post request db
                else (form_invalid post_form_errors, db)
            | PUT => (form_invalid post_form_errors, db)
            | OPTIONS => (reply HttpResponseAllow, db)
            | PATCH | DELETE | TRACE | OTHER =>
                (reply HttpResponseNotAllowed, db)
            end
      end
  end.

End PostUpdateView.

(** ** PostDeleteView *)

(** [Model.delete()] on a post: the collector follows the foreign key of
    [Document] and treats the related rows as its [on_delete] says.
    [None] stands for the raised [ProtectedError]. *)
Definition collect_and_delete (on_delete : OnDelete) (pk : Z) (db : DB) : option DB :=
  let without_post docs :=
    {| users := users db; posts := delete pk (posts db); documents := docs;
       post_seq := post_seq db; document_seq := document_seq db |} in
  match on_delete with
  | CASCADE =>
      Some (without_post (filter (λ kv, post kv.2 ≠ pk) (documents db)))
  | PROTECT =>
      if decide (filter (λ kv, post kv.2 = pk) (documents db) = ∅)
      then Some (without_post (documents db))
      else None
  | DO_NOTHING => Some (without_post (documents db))
  end.

Definition Post_delete (pk : Z) (db : DB) : option DB :=
  collect_and_delete Document_post_on_delete pk db.

Module PostDeleteView.

Definition test_func (user : RequestUser) (post : Post) : bool :=
  user_eq user (author post) || is_superuser user.

Definition handle_no_permission (pk : Z) : Reply :=
  reply_with error "You do not have permission to delete this post."
    (redirect (post_detail pk)).

Definition form_valid (pk : Z) (db : DB) : Reply * DB :=
  match Post_delete pk db with
  | Some db' =>
      (reply_with success "Post deleted successfully!" (redirect post_list), db')
  | None =>
      (reply_with success "Post deleted successfully!" HttpResponseServerError, db)
  end.

(** [DeletionMixin.delete], which answers the DELETE verb: the row is
    deleted without going through [form_valid], so without the notice. *)
Definition delete (pk : Z) (db : DB) : Reply * DB :=
  match Post_delete pk db with
  | Some db' => (reply (redirect post_list), db')
  | None => (reply HttpResponseServerError, db)
  end.

(** The mixins' gates, then the handler of the request method. *)
Definition dispatch (request : Request) (pk : Z) (db : DB) : Reply * DB :=
  match user request with
  | AnonymousUser => (handle_no_permission pk, db)
  | AuthenticatedUser u =>
      match get_object db pk with
      | None => (reply Http404, db)
      | Some post =>
          if negb (test_func (user request) post) then
            (handle_no_permission pk, db)
          else
            match method request with
            | GET | HEAD => (reply (render_post_confirm_delete (pk, post)), db)
            | POST => form_valid pk db
            | DELETE => delete pk db
            | OPTIONS => (reply HttpResponseAllow, db)
            | PUT | PATCH | TRACE | OTHER => (reply HttpResponseNotAllowed, db)
            end
      end
  end.

End PostDeleteView.

(** ** Reading a reply in the vocabulary of the design document

    The design document names the failures NotFound, Forbidden,
    AuthRequired and ValidationError.  In the views they are: the 404
    response, or the "File not found." notice; an error notice with a
    redirect to the listing or to a post; a redirect to the login page; the
    form rendered again with its errors.  The 500, 400 and 405 answers are
    none of these and keep their own names. *)

Inductive Outcome :=
  | Succeeded
  | NotFound
  | Forbidden
  | AuthRequired
  | ValidationError
  | ServerFault
  | BadRequest
  | MethodNotAllowed.

Definition spec_outcome (r : Reply) : Outcome :=
  match response r with
  | Http404 => NotFound
  | HttpResponseServerError => ServerFault
  | HttpResponseBadRequest => BadRequest
  | HttpResponseNotAllowed => MethodNotAllowed
  | render_post_form (Some _) => ValidationError
  | redirect login => AuthRequired
  | redirect _ =>
      match flash r with
      | (error, m) :: _ =>
          if bool_decide (m = "File not found.") then NotFound else Forbidden
      | _ => Succeeded
      end
  | _ => Succeeded
  end.

(** Every document row points at a post row. *)
Definition fk_integrity (db : DB) : Prop :=
  map_Forall (λ _ d, is_Some (posts db !! post d)) (documents db).

(** ** posts/models.py: the string methods *)

Definition Post___str__ (p : Post) : string := title p.

Definition Post_get_absolute_url (pk : Z) : Url := post_detail pk.

(** [Document.__str__]: the last segment of the stored name, then the
    title of the parent post.  [None] stands for a raised exception
    (the index [-1] on an empty list, a parent post that does not exist). *)
Definition Document___str__ (db : DB) (d : Document) : option string :=
  name ← last (split "/"%char (file d));
  p ← posts db !! post d;
  Some (name +:+ " for " +:+ title p).

(** ** MyBlog/views.py: HomePageView *)

Module HomePageView.

(** One line of the debug listing. *)
Definition debug_line (o : PostObj) : string :=
  "  - '" +:+ title o.2 +:+ "' (ID: " +:+ pretty o.1 +:+ ", Is Public: "
  +:+ (if is_public o.2 then "True" else "False") +:+ ")".

(** [get_queryset]: the public posts, newest first, together with the
    strings handed to [print], in order. *)
Definition get_queryset (db : DB) : list string * list PostObj :=
  let queryset :=
    PostListView.order_by_date_posted_desc
      (filter (λ o : PostObj, is_public o.2 = true) (map_to_list (posts db))) in
  let stdout :=
    ([ String "010"%char "--- DEBUG: HomePageView Queryset ---";
       "Number of public posts found in DB: "
       +:+ pretty (Z.of_nat (length queryset)) ]
     ++ (match queryset with
         | [] => ["No public posts retrieved by the queryset."]
         | _ => "Public post titles:" :: (debug_line <$> queryset)
         end)
     ++ [ "--- END DEBUG ---" +:+ String "010"%char "" ])%list in
  (stdout, queryset).

End HomePageView.

(** ** What a formset save may touch

    [db'] differs from [db] at most in the document rows of post [pk]. *)
Definition documents_changed_only_for (pk : Z) (db db' : DB) : Prop :=
  users db' = users db ∧
  posts db' = posts db ∧
  (∀ k d, documents db !! k = Some d → post d ≠ pk →
          documents db' !! k = Some d) ∧
  (∀ k d, documents db' !! k = Some d →
          documents db !! k = Some d ∨ post d = pk).

(** The blank form that [extra=1] puts at the end of every formset. *)
Definition blank_form : DocumentFormData :=
  {| data_id := None; data_file := None; data_description := "";
     data_DELETE := false |}.

(** An extra form that [save_new_objects] turns into a row. *)
Definition adds_document (f : DocumentFormData) : bool :=
  bool_decide (data_id f = None) && bool_decide (is_Some (data_file f))
  && negb (data_DELETE f).

(** ** A small store used to run the views

    Alice (staff) wrote three posts: a private one shared with Carol that
    carries one document, a public one that is also shared, and a private
    one shared with nobody. *)

Module Sample.

Definition alice : User :=
  {| user_id := 1; user_is_staff := true; user_is_superuser := false |}.
Definition bob : User :=
  {| user_id := 2; user_is_staff := false; user_is_superuser := false |}.
Definition carol : User :=
  {| user_id := 3; user_is_staff := false; user_is_superuser := false |}.
Definition root : User :=
  {| user_id := 9; user_is_staff := true; user_is_superuser := true |}.

Definition hello : Post :=
  {| title := "Hello"; content := "first"; author := 1; date_posted := 100;
     is_public := false; shared_with := {[ 3 ]} |}.
Definition news : Post :=
  {| title := "News"; content := "second"; author := 1; date_posted := 200;
     is_public := true; shared_with := {[ 2; 3 ]} |}.
Definition diary : Post :=
  {| title := "Diary"; content := "third"; author := 1; date_posted := 300;
     is_public := false; shared_with := ∅ |}.

Definition notes : Document :=
  {| post := 1; file := "post_documents/notes.txt"; description := "notes" |}.

Definition db : DB :=
  {| users := {[ 1 := alice; 2 := bob; 3 := carol; 9 := root ]};
     posts := {[ 1 := hello; 2 := news; 3 := diary ]};
     documents := {[ 1 := notes ]};
     post_seq := 3;
     document_seq := 1 |}.

Definition media_root : string := "/srv/media".

Definition payload : list Byte.byte := [Byte.x68; Byte.x69; Byte.x0a].

Definition fs : FileSystem :=
  {[ "/srv/media/post_documents/notes.txt" := RegularFile payload ]}.

(** Requests by Alice whose formset holds a form with a description but
    no file, which [DocumentForm] rejects. *)
Definition attached (name : string) : DocumentFormData :=
  {| data_id := None;
     data_file := Some {| upload_name := name; upload_content := payload |};
     data_description := "attachment"; data_DELETE := false |}.

Definition missing_file : DocumentFormData :=
  {| data_id := None; data_file := None;
     data_description := "no file chosen"; data_DELETE := false |}.

Definition trip : PostFormData :=
  {| data_title := "Trip"; data_content := "photos";
     data_is_public := false; data_shared_with := [3] |}.

Definition create_request : Request :=
  {| user := AuthenticatedUser alice; method := POST; POST_post := trip;
     POST_documents :=
       [attached "a.txt"; attached "b.txt"; missing_file; attached "c.txt"];
     now := 400 |}.

Definition create_request_ok : Request :=
  {| user := AuthenticatedUser alice; method := POST; POST_post := trip;
     POST_documents := [attached "a.txt"; attached "b.txt"; attached "c.txt"];
     now := 400 |}.

Definition hello_edited : PostFormData :=
  {| data_title := "Hello, edited"; data_content := "changed";
     data_is_public := true; data_shared_with := [] |}.

Definition update_request : Request :=
  {| user := AuthenticatedUser alice; method := POST;
     POST_post := hello_edited; POST_documents := [missing_file];
     now := 500 |}.

Definition delete_request : Request :=
  {| user := AuthenticatedUser alice; method := POST;
     POST_post := trip; POST_documents := []; now := 600 |}.

End Sample.

(** ** Further requests on the sample store *)

Module Scenario.

(** Alice edits her post 1: a new attachment, and the old one ticked for
    deletion. *)
Definition remove_notes : DocumentFormData :=
  {| data_id := Some 1; data_file := None; data_description := "notes";
     data_DELETE := true |}.

Definition update_request_ok : Request :=
  {| user := AuthenticatedUser Sample.alice; method := POST;
     POST_post := Sample.hello_edited;
     POST_documents := [remove_notes; Sample.attached "d.txt"];
     now := 500 |}.

(** Anyone without an account. *)
Definition anonymous_post : Request :=
  {| user := AnonymousUser; method := POST; POST_post := Sample.trip;
     POST_documents := []; now := 700 |}.

(** Bob, who may neither edit nor delete post 1. *)
Definition bob_post : Request :=
  {| user := AuthenticatedUser Sample.bob; method := POST;
     POST_post := Sample.trip; POST_documents := []; now := 700 |}.

(** The superuser sending the DELETE verb. *)
Definition delete_verb : Request :=
  {| user := AuthenticatedUser Sample.root; method := DELETE;
     POST_post := Sample.trip; POST_documents := []; now := 700 |}.

(** The superuser opening the edit and confirmation pages. *)
Definition root_get : Request :=
  {| user := AuthenticatedUser Sample.root; method := GET;
     POST_post := Sample.trip; POST_documents := []; now := 700 |}.

End Scenario.

(** * Properties *)

(** ** Visibility *)

Lemma user_eq_true (user : RequestUser) (a : Z) :
  user_eq user a = true ↔ ∃ u, user = AuthenticatedUser u ∧ user_id u = a.
Proof.
  destruct user as [|u]; simpl.
  - split; [done | by intros (? & ? & ?)].
  - rewrite bool_decide_eq_true. split.
    + intros H. by exists u.
    + intros (u' & [= <-] & H). done.
Qed.

Lemma is_superuser_true (user : RequestUser) :
  is_superuser user = true ↔
  ∃ u, user = AuthenticatedUser u ∧ user_is_superuser u = true.
Proof.
  destruct user as [|u]; simpl.
  - split; [done | by intros (? & ? & ?)].
  - split.
    + intros H. by exists u.
    + intros (u' & [= <-] & H). done.
Qed.

(** What [PostDetailView.test_func] computes, as one boolean expression. *)
Lemma PostDetailView_test_func_unfold (user : RequestUser) (p : Post) :
  PostDetailView.test_func user p =
  is_public p
  || (is_authenticated user
      && (user_eq user (author p) || user_in user (shared_with p)
          || is_superuser user)).
Proof.
  unfold PostDetailView.test_func.
  destruct (is_public p), (is_authenticated user), (user_eq user (author p)),
    (user_in user (shared_with p)), (is_superuser user); reflexivity.
Qed.

(** C2: a public post passes the detail-view test for every caller, the
    anonymous one included; a private post fails it for the anonymous
    caller and for every user who is neither its author, nor in its
    [shared_with], nor a superuser. *)
Theorem canView_public_and_private (p : Post) :
  (is_public p = true → ∀ user, PostDetailView.test_func user p = true) ∧
  (is_public p = false →
     PostDetailView.test_func AnonymousUser p = false ∧
     ∀ u, user_id u ≠ author p → user_id u ∉ shared_with p →
          user_is_superuser u = false →
          PostDetailView.test_func (AuthenticatedUser u) p = false).
Proof.
  split.
  - intros Hpub user. unfold PostDetailView.test_func. by rewrite Hpub.
  - intros Hpriv. split.
    + unfold PostDetailView.test_func. by rewrite Hpriv.
    + intros u Hauthor Hshared Hsuper.
      unfold PostDetailView.test_func. rewrite Hpriv. simpl.
      rewrite Hsuper.
      rewrite (bool_decide_eq_false_2 _ Hauthor).
      by rewrite (bool_decide_eq_false_2 _ Hshared).
Qed.

Lemma canView_public_and_private_witness :
  PostDetailView.test_func AnonymousUser Sample.news = true ∧
  PostDetailView.test_func AnonymousUser Sample.hello = false ∧
  PostDetailView.test_func (AuthenticatedUser Sample.bob) Sample.hello = false.
Proof.
  split; [| split].
  - apply (proj1 (canView_public_and_private Sample.news)). reflexivity.
  - apply (proj2 (canView_public_and_private Sample.hello)). reflexivity.
  - apply (proj2 (canView_public_and_private Sample.hello)).
    + reflexivity.
    + vm_compute. discriminate.
    + vm_compute. discriminate.
    + reflexivity.
Defined.

(** The update and delete views share one test. *)
Lemma modify_test_func_true (user : RequestUser) (p : Post) :
  user_eq user (author p) || is_superuser user = true ↔
  ∃ u, user = AuthenticatedUser u ∧
       (user_id u = author p ∨ user_is_superuser u = true).
Proof.
  rewrite orb_true_iff, user_eq_true, is_superuser_true. split.
  - intros [(u & -> & H) | (u & -> & H)]; exists u; auto.
  - intros (u & -> & [H | H]); [left | right]; by exists u.
Qed.

(** C10: whenever the update or delete test (author or superuser) grants
    access to a post, the detail-view test grants it too. *)
Theorem modify_implies_view (user : RequestUser) (p : Post) :
  (PostUpdateView.test_func user p = true →
   PostDetailView.test_func user p = true) ∧
  (PostDeleteView.test_func user p = true →
   PostDetailView.test_func user p = true).
Proof.
  assert (H : user_eq user (author p) || is_superuser user = true →
              PostDetailView.test_func user p = true).
  { rewrite PostDetailView_test_func_unfold.
    destruct user as [|u]; simpl; [done |].
    intros [-> | ->]%orb_true_iff.
    - by rewrite orb_true_r.
    - by rewrite !orb_true_r. }
  split; exact H.
Qed.

Lemma modify_implies_view_witness :
  PostDetailView.test_func (AuthenticatedUser Sample.alice) Sample.diary = true ∧
  PostDetailView.test_func (AuthenticatedUser Sample.root) Sample.diary = true.
Proof.
  split.
  - apply (proj1 (modify_implies_view _ Sample.diary)). reflexivity.
  - apply (proj2 (modify_implies_view _ Sample.diary)). reflexivity.
Defined.

(** C5: the test that gates update and delete holds exactly for the post's
    author and for superusers; an update by anyone else is answered with
    the permission notice and a redirect, and returns the store as it
    was. *)
Theorem update_requires_author_or_superuser
    (request : Request) (pk : Z) (db : DB) (p : Post) :
  (PostUpdateView.test_func (user request) p = true ↔
   ∃ u, user request = AuthenticatedUser u ∧
        (user_id u = author p ∨ user_is_superuser u = true)) ∧
  (PostDeleteView.test_func (user request) p = true ↔
   ∃ u, user request = AuthenticatedUser u ∧
        (user_id u = author p ∨ user_is_superuser u = true)) ∧
  (posts db !! pk = Some p →
   PostUpdateView.test_func (user request) p = false →
   PostUpdateView.dispatch request pk db
     = (PostUpdateView.handle_no_permission pk, db) ∧
   spec_outcome (PostUpdateView.dispatch request pk db).1 = Forbidden ∧
   posts (PostUpdateView.dispatch request pk db).2 = posts db ∧
   documents (PostUpdateView.dispatch request pk db).2 = documents db).
Proof.
  split; [apply modify_test_func_true |].
  split; [apply modify_test_func_true |].
  intros Hp Htest.
  assert (Hd : PostUpdateView.dispatch request pk db
               = (PostUpdateView.handle_no_permission pk, db)).
  { unfold PostUpdateView.dispatch, get_object.
    destruct (user request) as [|u] eqn:Hu; [done |].
    by rewrite Hp, Htest. }
  rewrite Hd. done.
Qed.

Lemma update_requires_author_or_superuser_witness :
  let request := {| user := AuthenticatedUser Sample.bob; method := POST;
                    POST_post := {| data_title := "Mine now";
                                    data_content := "overwritten";
                                    data_is_public := true;
                                    data_shared_with := [] |};
                    POST_documents := []; now := 400 |} in
  PostUpdateView.dispatch request 1 Sample.db
    = (PostUpdateView.handle_no_permission 1, Sample.db) ∧
  spec_outcome (PostUpdateView.dispatch request 1 Sample.db).1 = Forbidden ∧
  posts (PostUpdateView.dispatch request 1 Sample.db).2 = posts Sample.db ∧
  documents (PostUpdateView.dispatch request 1 Sample.db).2
    = documents Sample.db.
Proof.
  intros request.
  apply (proj2 (proj2 (update_requires_author_or_superuser
                         request 1 Sample.db Sample.hello))).
  - reflexivity.
  - reflexivity.
Defined.

(** C6: the create test holds exactly for staff users; a create by anyone
    else is answered with the permission notice and a redirect to the
    listing, and the post and document tables are the ones it started
    from. *)
Theorem create_requires_staff (request : Request) (db : DB) :
  (PostCreateView.test_func (user request) = true ↔
   ∃ u, user request = AuthenticatedUser u ∧ user_is_staff u = true) ∧
  (PostCreateView.test_func (user request) = false →
   PostCreateView.dispatch request db = (PostCreateView.handle_no_permission, db) ∧
   spec_outcome (PostCreateView.dispatch request db).1 = Forbidden ∧
   size (posts (PostCreateView.dispatch request db).2) = size (posts db) ∧
   size (documents (PostCreateView.dispatch request db).2)
     = size (documents db)).
Proof.
  split.
  - unfold PostCreateView.test_func.
    destruct (user request) as [|u]; simpl.
    + split; [done | by intros (? & ? & ?)].
    + split; [intros H; by exists u | by intros (? & [= <-] & ?)].
  - intros Htest.
    assert (Hd : PostCreateView.dispatch request db
                 = (PostCreateView.handle_no_permission, db)).
    { unfold PostCreateView.dispatch.
      destruct (user request) as [|u] eqn:Hu; [done |].
      by rewrite Htest. }
    rewrite Hd. done.
Qed.

Lemma create_requires_staff_witness :
  let request := {| user := AuthenticatedUser Sample.bob; method := POST;
                    POST_post := {| data_title := "Hi";
                                    data_content := "there";
                                    data_is_public := true;
                                    data_shared_with := [] |};
                    POST_documents := []; now := 400 |} in
  PostCreateView.dispatch request Sample.db
    = (PostCreateView.handle_no_permission, Sample.db) ∧
  spec_outcome (PostCreateView.dispatch request Sample.db).1 = Forbidden ∧
  size (posts (PostCreateView.dispatch request Sample.db).2)
    = size (posts Sample.db) ∧
  size (documents (PostCreateView.dispatch request Sample.db).2)
    = size (documents Sample.db).
Proof.
  intros request.
  apply (proj2 (create_requires_staff request Sample.db)).
  reflexivity.
Defined.

(** C7: when the detail view denies a post, an anonymous caller is sent to
    the login page and an authenticated caller to the post listing. *)
Theorem detail_denied_redirects (user : RequestUser) (pk : Z) (db : DB) (p : Post) :
  posts db !! pk = Some p →
  PostDetailView.test_func user p = false →
  is_public p = false ∧
  (is_authenticated user = false →
   response (PostDetailView.dispatch user pk db) = redirect login ∧
   spec_outcome (PostDetailView.dispatch user pk db) = AuthRequired) ∧
  (is_authenticated user = true →
   response (PostDetailView.dispatch user pk db) = redirect post_list ∧
   spec_outcome (PostDetailView.dispatch user pk db) = Forbidden).
Proof.
  intros Hp Htest. split.
  { unfold PostDetailView.test_func in Htest. by destruct (is_public p). }
  unfold PostDetailView.dispatch, get_object. rewrite Hp, Htest.
  unfold PostDetailView.handle_no_permission.
  split; intros ->; done.
Qed.

Lemma detail_denied_redirects_witness :
  response (PostDetailView.dispatch AnonymousUser 1 Sample.db) = redirect login ∧
  response (PostDetailView.dispatch (AuthenticatedUser Sample.bob) 1 Sample.db)
    = redirect post_list.
Proof.
  split.
  - apply (detail_denied_redirects AnonymousUser 1 Sample.db Sample.hello);
      reflexivity.
  - apply (detail_denied_redirects (AuthenticatedUser Sample.bob) 1 Sample.db
             Sample.hello); reflexivity.
Defined.

(** ** Download *)

Lemma rfind_range (c : ascii) (s : string) : -1 ≤ rfind c s.
Proof.
  induction s as [|a s IH]; simpl; [lia |].
  repeat case_bool_decide; lia.
Qed.

Lemma rfind_absent (c : ascii) (s : string) :
  rfind c s = -1 → ∀ a b, s ≠ a +:+ String c b.
Proof.
  induction s as [|x s IH]; simpl; intros Hr a b Heq.
  - destruct a; discriminate.
  - pose proof (rfind_range c s).
    repeat case_bool_decide; try lia.
    destruct a as [|y a]; simpl in Heq; injection Heq as -> ->; [done |].
    by eapply IH; [lia |].
Qed.

Lemma rfind_present (c : ascii) (s : string) :
  0 ≤ rfind c s →
  ∃ a b, s = a +:+ String c b ∧ String.length a = Z.to_nat (rfind c s)
         ∧ rfind c b = -1.
Proof.
  induction s as [|x s IH]; simpl; [lia |].
  pose proof (rfind_range c s) as Hr.
  case_bool_decide as H0.
  - intros _. destruct (IH H0) as (a & b & -> & Hlen & Hb).
    exists (String x a), b. simpl. split; [done |]. split; [lia | done].
  - case_bool_decide as Hx; [| lia].
    intros _. subst x. exists "", s. simpl. split; [done |].
    split; [done | lia].
Qed.

Lemma slice_from_app (a b : string) : slice_from (String.length a) (a +:+ b) = b.
Proof. induction a as [|x a IH]; simpl; [by destruct b | done]. Qed.

Lemma append_char_assoc (a b : string) (c : ascii) :
  (a +:+ String c "") +:+ b = a +:+ String c b.
Proof.
  induction a as [|x a IH]; [done |].
  change (String x ((a +:+ String c "") +:+ b) = String x (a +:+ String c b)).
  by f_equal.
Qed.

Lemma length_append_char (a : string) (c : ascii) :
  String.length (a +:+ String c "") = S (String.length a).
Proof.
  induction a as [|x a IH]; [done |].
  change (S (String.length (a +:+ String c "")) = S (S (String.length a))).
  by f_equal.
Qed.

(** [basename] is the text after the last slash: the path is a directory
    prefix (empty, or ending in a slash) followed by a name without one. *)
Lemma basename_final_segment (p : string) :
  ∃ dir, p = dir +:+ basename p
         ∧ (dir = "" ∨ ∃ d, dir = d +:+ "/")
         ∧ ∀ a b, basename p ≠ a +:+ String "/"%char b.
Proof.
  unfold basename.
  pose proof (rfind_range "/"%char p) as Hr.
  destruct (decide (rfind "/"%char p = -1)) as [Hn | Hn].
  - rewrite Hn. simpl. exists "". split; [done |]. split; [by left |].
    by apply rfind_absent.
  - destruct (rfind_present "/"%char p) as (a & b & Hp & Hlen & Hb); [lia |].
    exists (a +:+ "/").
    assert (Hs : slice_from (Z.to_nat (rfind "/"%char p + 1)) p = b).
    { replace (Z.to_nat (rfind "/"%char p + 1))
        with (String.length (a +:+ "/"))
        by (rewrite length_append_char; lia).
      rewrite Hp at 1. rewrite <- (append_char_assoc a b).
      apply slice_from_app. }
    rewrite Hs. split; [by rewrite (append_char_assoc a b) |].
    split; [right; by exists a | by apply rfind_absent].
Qed.

(** *** Paths of stored files *)

Lemma append_cons (a : ascii) (s t : string) :
  String a s +:+ t = String a (s +:+ t).
Proof. reflexivity. Qed.

Lemma startswith_app (p t : string) : startswith (p +:+ t) p = true.
Proof.
  induction p as [|a p IH]; [by destruct t |].
  rewrite append_cons. simpl. by rewrite bool_decide_eq_true_2.
Qed.

Lemma split_nonempty (c : ascii) (s : string) : split c s ≠ [].
Proof.
  destruct s as [|a s]; simpl; [done |].
  case_bool_decide; [done |]. by destruct (split c s).
Qed.

(** Joining what [split] gave returns the string. *)
Lemma str_join_split (c : ascii) (s : string) :
  str_join (String c "") (split c s) = s.
Proof.
  induction s as [|a s IH]; [done |].
  pose proof (split_nonempty c s) as Hne. simpl.
  destruct (split c s) as [|y ys]; [done |].
  case_bool_decide as Ha.
  - subst a. change (String c (str_join (String c "") (y :: ys)) = String c s).
    by rewrite IH.
  - destruct ys as [|z zs].
    + simpl in *. by rewrite IH.
    + change (String a (str_join (String c "") (y :: z :: zs)) = String a s).
      by rewrite IH.
Qed.

Lemma split_app_sep (c : ascii) (a b : string) :
  split c (a +:+ String c b) = (split c a ++ split c b)%list.
Proof.
  induction a as [|x a IH].
  - change (split c (String c b) = "" :: split c b). simpl.
    by rewrite bool_decide_eq_true_2.
  - rewrite append_cons. simpl. rewrite IH.
    pose proof (split_nonempty c a) as Hne.
    case_bool_decide; [done |]. by destruct (split c a).
Qed.

Lemma relative_clean_first (r : string) :
  relative_clean r = true → ∃ a r', r = String a r' ∧ a ≠ "/"%char.
Proof.
  unfold relative_clean. destruct r as [|a r']; [done |].
  intros H. exists a, r'. split; [done |]. intros ->.
  change (split "/"%char (String "/"%char r'))
    with ("" :: split "/"%char r') in H.
  done.
Qed.

Lemma relative_clean_app (r n : string) :
  relative_clean r = true → relative_clean n = true →
  relative_clean (r +:+ String "/"%char n) = true.
Proof.
  unfold relative_clean. intros Hr Hn.
  by rewrite split_app_sep, forallb_app, Hr, Hn.
Qed.

Lemma foldl_normpath_step_clean (n : nat) (comps acc : list string) :
  forallb clean_segment comps = true →
  foldl (normpath_step n) acc comps = (acc ++ comps)%list.
Proof.
  revert acc. induction comps as [|c comps IH]; intros acc Hclean; simpl.
  - by rewrite app_nil_r.
  - apply andb_true_iff in Hclean as [Hc Hrest].
    rewrite IH by done.
    unfold clean_segment in Hc.
    apply andb_true_iff in Hc as [[H1 H2]%andb_true_iff H3].
    apply negb_true_iff in H1, H2.
    unfold normpath_step. rewrite H1, H2, H3. simpl.
    by rewrite <- app_assoc.
Qed.

(** [normpath] leaves an absolute path of clean components as it is. *)
Lemma normpath_clean (r : string) :
  relative_clean r = true → normpath (String "/"%char r) = String "/"%char r.
Proof.
  intros Hr. destruct (relative_clean_first r Hr) as (a & r' & Heq & Ha).
  unfold normpath.
  rewrite bool_decide_eq_false_2 by done.
  assert (startswith (String "/"%char r) "/" = true) as ->
    by (by destruct r).
  assert (startswith (String "/"%char r) "//" = false) as ->.
  { rewrite Heq. simpl. by rewrite (bool_decide_eq_false_2 ("/"%char = a)). }
  cbv beta iota zeta delta [andb].
  assert (split "/"%char (String "/"%char r) = "" :: split "/"%char r) as ->
    by done.
  unfold relative_clean in Hr.
  pose proof (str_join_split "/"%char r) as Hjoin.
  remember (split "/"%char r) as comps eqn:Hcomps. clear Hcomps.
  change (foldl (normpath_step 1) [] ("" :: comps))
    with (foldl (normpath_step 1) [] comps).
  rewrite foldl_normpath_step_clean by done.
  rewrite app_nil_l, Hjoin.
  by rewrite bool_decide_eq_false_2.
Qed.

Lemma endswith_char_last_split (c : ascii) (s : string) :
  endswith_char s c = true → last (split c s) = Some "".
Proof.
  induction s as [|a s IH]; [done |].
  destruct s as [|b s'].
  - simpl. intros Ha%bool_decide_eq_true. subst a.
    by rewrite bool_decide_eq_true_2.
  - intros Hend. change (endswith_char (String b s') c = true) in Hend.
    specialize (IH Hend).
    pose proof (str_join_split c (String b s')) as Hjoin.
    change (split c (String a (String b s')))
      with (if bool_decide (a = c) then "" :: split c (String b s')
            else match split c (String b s') with
                 | [] => [String a ""]
                 | x :: xs => String a x :: xs
                 end).
    destruct (split c (String b s')) as [|x xs] eqn:Hs; [done |].
    case_bool_decide; [exact IH |].
    destruct xs as [|y ys]; [| exact IH].
    simpl in IH, Hjoin. congruence.
Qed.

Lemma relative_clean_no_trailing_slash (r : string) :
  relative_clean r = true → endswith_char r "/"%char = false.
Proof.
  unfold relative_clean. intros Hr.
  destruct (endswith_char r "/"%char) eqn:Hend; [| done].
  apply endswith_char_last_split in Hend.
  apply last_Some in Hend as (l & Hl). rewrite Hl, forallb_app in Hr.
  apply andb_true_iff in Hr as [_ Hr]. done.
Qed.

(** For a media root and a stored name made of clean components the
    storage's path is the root, a slash, and the name. *)
Lemma file_path_clean (MEDIA_ROOT : string) (d : Document) :
  absolute_clean MEDIA_ROOT = true →
  relative_clean (file d) = true →
  file_path MEDIA_ROOT d = inr (MEDIA_ROOT +:+ "/" +:+ file d).
Proof.
  intros Hroot Hname.
  destruct MEDIA_ROOT as [|x r]; [done |].
  apply andb_true_iff in Hroot as [Hx%bool_decide_eq_true Hr]. subst x.
  destruct (relative_clean_first _ Hname) as (a & n' & Hn & Ha).
  destruct (relative_clean_first _ Hr) as (b & r' & Hr' & Hb).
  unfold file_path, storage_location, safe_join.
  rewrite bool_decide_eq_false_2 by (rewrite Hn; done).
  rewrite !normpath_clean by done.
  assert (Hjoin : posix_join (String "/"%char r) (file d)
                  = String "/"%char (r +:+ String "/"%char (file d))).
  { unfold posix_join.
    assert (startswith (file d) "/" = false) as ->.
    { rewrite Hn. simpl. by rewrite (bool_decide_eq_false_2 ("/"%char = a)). }
    rewrite bool_decide_eq_false_2 by done.
    assert (endswith_char (String "/"%char r) "/"%char = false) as ->.
    { rewrite Hr'. change (endswith_char (String b r') "/"%char = false).
      rewrite <- Hr'. by apply relative_clean_no_trailing_slash. }
    done. }
  rewrite Hjoin, normpath_clean by (by apply relative_clean_app).
  assert (startswith (String "/"%char (r +:+ String "/"%char (file d)))
            (String "/"%char r +:+ "/") = true) as ->.
  { rewrite <- append_cons, <- (append_char_assoc (String "/"%char r) (file d)).
    apply startswith_app. }
  done.
Qed.

(** For a logged-in caller the permission expression of the download view
    is the detail-view test. *)
Lemma download_permission_is_test_func (user : RequestUser) (p : Post) :
  is_authenticated user = true →
  is_public p || user_eq user (author p) || user_in user (shared_with p)
    || is_superuser user
  = PostDetailView.test_func user p.
Proof.
  intros Hauth. rewrite PostDetailView_test_func_unfold, Hauth.
  by destruct (is_public p), (user_eq user (author p)),
    (user_in user (shared_with p)), (is_superuser user).
Qed.

(** C3: the download view checks, in this order: the document row (404
    when absent); that the caller is logged in (redirect to login); that
    the caller passes the detail-view test on the parent post (permission
    notice).  For a document whose stored name is a relative path of
    ordinary components under an absolute media root, the stored file path
    is the root, a slash and that name; when nothing exists at that path
    the view answers with the "File not found." notice, and when a file is
    there it answers with exactly its bytes and, as the file name, the
    final segment of that path. *)
Theorem download_document_checks
    (MEDIA_ROOT : string) (user : RequestUser) (pk : Z) (db : DB) (fs : FileSystem) :
  let r := download_document MEDIA_ROOT user pk db fs in
  (documents db !! pk = None →
   response r = Http404 ∧ spec_outcome r = NotFound) ∧
  (∀ d p, documents db !! pk = Some d → posts db !! post d = Some p →
     (is_authenticated user = false →
      response r = redirect login ∧ spec_outcome r = AuthRequired) ∧
     (is_authenticated user = true →
      PostDetailView.test_func user p = false →
      response r = redirect (post_detail (post d)) ∧
      spec_outcome r = Forbidden) ∧
     (is_authenticated user = true →
      PostDetailView.test_func user p = true →
      absolute_clean MEDIA_ROOT = true →
      relative_clean (file d) = true →
      let path := MEDIA_ROOT +:+ "/" +:+ file d in
      file_path MEDIA_ROOT d = inr path ∧
      (fs !! path = None →
       response r = redirect (post_detail (post d)) ∧
       spec_outcome r = NotFound) ∧
      (∀ payload, fs !! path = Some (RegularFile payload) →
       response r
         = HttpResponseOctetStream payload ("inline; filename=" +:+ basename path) ∧
       spec_outcome r = Succeeded ∧
       ∃ dir, path = dir +:+ basename path
              ∧ (dir = "" ∨ ∃ d', dir = d' +:+ "/")
              ∧ ∀ a b, basename path ≠ a +:+ String "/"%char b))).
Proof.
  intros r. subst r. unfold download_document. split.
  - intros ->. done.
  - intros d p Hd Hp. cbv zeta. rewrite Hd, Hp.
    split; [| split].
    + intros ->. done.
    + intros Hauth Htest.
      rewrite Hauth, (download_permission_is_test_func _ _ Hauth), Htest. done.
    + intros Hauth Htest Hroot Hname.
      rewrite Hauth, (download_permission_is_test_func _ _ Hauth), Htest.
      rewrite (file_path_clean MEDIA_ROOT d Hroot Hname). simpl.
      split; [done |]. split.
      * intros ->. done.
      * intros payload ->. split; [done |]. split; [done |].
        apply basename_final_segment.
Qed.

Lemma download_document_checks_witness :
  response (download_document Sample.media_root (AuthenticatedUser Sample.carol)
              1 Sample.db Sample.fs)
    = HttpResponseOctetStream Sample.payload "inline; filename=notes.txt" ∧
  response (download_document Sample.media_root (AuthenticatedUser Sample.bob)
              1 Sample.db Sample.fs)
    = redirect (post_detail 1) ∧
  response (download_document Sample.media_root AnonymousUser 7 Sample.db Sample.fs)
    = Http404.
Proof.
  split; [| split].
  - destruct (download_document_checks Sample.media_root
                (AuthenticatedUser Sample.carol) 1 Sample.db Sample.fs)
      as [_ H].
    destruct (H Sample.notes Sample.hello eq_refl eq_refl) as (_ & _ & H3).
    destruct (H3 eq_refl eq_refl eq_refl eq_refl) as (_ & _ & H5).
    destruct (H5 Sample.payload eq_refl) as [Hr _].
    exact Hr.
  - destruct (download_document_checks Sample.media_root
                (AuthenticatedUser Sample.bob) 1 Sample.db Sample.fs)
      as [_ H].
    destruct (H Sample.notes Sample.hello eq_refl eq_refl) as (_ & H2 & _).
    destruct (H2 eq_refl eq_refl) as [Hr _].
    exact Hr.
  - destruct (download_document_checks Sample.media_root AnonymousUser 7
                Sample.db Sample.fs) as [H _].
    destruct (H eq_refl) as [Hr _].
    exact Hr.
Defined.

(** A row without a file name makes [document.file.path] raise, and a
    name that leaves the media root is refused by the storage. *)
Example download_without_stored_file :
  response (download_document Sample.media_root (AuthenticatedUser Sample.alice)
              1 {| users := users Sample.db; posts := posts Sample.db;
                   documents := {[ 1 := {| post := 1; file := "";
                                           description := "" |} ]};
                   post_seq := 3; document_seq := 1 |}
              Sample.fs)
    = HttpResponseServerError ∧
  response (download_document Sample.media_root (AuthenticatedUser Sample.alice)
              1 {| users := users Sample.db; posts := posts Sample.db;
                   documents := {[ 1 := {| post := 1; file := "../secret";
                                           description := "" |} ]};
                   post_seq := 3; document_seq := 1 |}
              Sample.fs)
    = HttpResponseBadRequest.
Proof. split; vm_compute; reflexivity. Qed.

(** ** Listing *)

Section listing.

Import PostListView.

Local Instance newer_first_total : Total newer_first.
Proof. intros a b. unfold newer_first. lia. Qed.

(** The joined rows of one post. *)
Lemma elem_of_left_join (rows : list PostObj) (o : PostObj) (j : option Z) :
  (o, j) ∈ left_join_shared_with rows ↔
  o ∈ rows ∧ match j with
             | Some x => x ∈ shared_with o.2
             | None => shared_with o.2 = ∅
             end.
Proof.
  unfold left_join_shared_with. rewrite list_elem_of_bind. split.
  - intros (o' & Hin & Ho').
    destruct (elements (shared_with o'.2)) as [|x xs] eqn:He.
    + apply list_elem_of_singleton in Hin as [= -> ->].
      split; [done |]. by apply leibniz_equiv, elements_empty_iff.
    + apply list_elem_of_fmap in Hin as (y & [= -> ->] & Hy).
      split; [done |]. apply elem_of_elements. by rewrite He.
  - intros [Ho Hj]. exists o. split; [| done].
    destruct j as [x|].
    + apply elem_of_elements in Hj.
      destruct (elements (shared_with o.2)) as [|z zs] eqn:He.
      * by apply elem_of_nil in Hj.
      * apply list_elem_of_fmap. by exists x.
    + rewrite Hj, elements_empty. by apply list_elem_of_singleton.
Qed.

(** Every post has at least one joined row. *)
Lemma left_join_covers (rows : list PostObj) (o : PostObj) :
  o ∈ rows → ∃ j, (o, j) ∈ left_join_shared_with rows.
Proof.
  intros Ho. destruct (elements (shared_with o.2)) as [|x xs] eqn:He.
  - exists None. apply elem_of_left_join. split; [done |].
    by apply leibniz_equiv, elements_empty_iff.
  - exists (Some x). apply elem_of_left_join. split; [done |].
    apply elem_of_elements. rewrite He. by left.
Qed.

Lemma elem_of_filtered (u : User) (rows : list PostObj) (o : PostObj) :
  o ∈ distinct (filter (λ row, Q_public_or_shared u row = true)
                  (left_join_shared_with rows)) ↔
  o ∈ rows ∧ (is_public o.2 = true ∨ user_id u ∈ shared_with o.2).
Proof.
  unfold distinct. rewrite elem_of_remove_dups, list_elem_of_fmap. split.
  - intros ([o' j] & -> & Hrow). simpl.
    apply list_elem_of_filter in Hrow as [HQ Hrow].
    apply elem_of_left_join in Hrow as [Ho Hj]. split; [done |].
    unfold Q_public_or_shared in HQ. simpl in HQ.
    apply orb_true_iff in HQ as [HQ | HQ]; [by left |].
    apply bool_decide_eq_true in HQ. subst j. by right.
  - intros [Ho [Hpub | Hsh]].
    + destruct (left_join_covers rows o Ho) as [j Hj].
      exists (o, j). split; [done |].
      apply list_elem_of_filter. split; [| done].
      unfold Q_public_or_shared. simpl. by rewrite Hpub.
    + exists (o, Some (user_id u)). split; [done |].
      apply list_elem_of_filter. split.
      * unfold Q_public_or_shared. simpl.
        rewrite bool_decide_eq_true_2 by done. by rewrite orb_true_r.
      * by apply elem_of_left_join.
Qed.

(** The rows of the queryset, whatever their order. *)
Lemma elem_of_get_queryset (u : User) (db : DB) (k : Z) (p : Post) :
  (k, p) ∈ get_queryset u db ↔
  posts db !! k = Some p ∧
  (user_is_superuser u = true ∨ is_public p = true
   ∨ user_id u ∈ shared_with p).
Proof.
  unfold get_queryset, order_by_date_posted_desc.
  destruct (user_is_superuser u).
  - rewrite merge_sort_Permutation, elem_of_map_to_list. intuition.
  - rewrite merge_sort_Permutation, elem_of_filtered, elem_of_map_to_list.
    simpl. intuition discriminate.
Qed.

Lemma NoDup_get_queryset (u : User) (db : DB) : NoDup (get_queryset u db).
Proof.
  unfold get_queryset, order_by_date_posted_desc.
  destruct (user_is_superuser u); rewrite merge_sort_Permutation.
  - apply NoDup_map_to_list.
  - apply NoDup_remove_dups.
Qed.

(** No primary key occurs twice in the queryset. *)
Lemma NoDup_get_queryset_pk (u : User) (db : DB) :
  NoDup (get_queryset u db).*1.
Proof.
  apply NoDup_fmap_fst; [| apply NoDup_get_queryset].
  intros k p1 p2 [H1 _]%elem_of_get_queryset [H2 _]%elem_of_get_queryset.
  congruence.
Qed.

Lemma Sorted_get_queryset (u : User) (db : DB) :
  Sorted newer_first (get_queryset u db).
Proof.
  unfold get_queryset, order_by_date_posted_desc.
  destruct (user_is_superuser u); apply (Sorted_merge_sort _).
Qed.

End listing.

(** C4: for a logged-in user the list view renders the queryset, which
    holds every post for a superuser and otherwise exactly the posts that
    are public or shared with the user; no post occurs twice, also when it
    is both public and shared; and the rows come newest first. *)
Theorem list_posts (u : User) (db : DB) :
  let l := PostListView.get_queryset u db in
  PostListView.dispatch (AuthenticatedUser u) db = reply (render_post_list l) ∧
  (user_is_superuser u = true →
   ∀ k p, (k, p) ∈ l ↔ posts db !! k = Some p) ∧
  (user_is_superuser u = false →
   ∀ k p, (k, p) ∈ l ↔
          posts db !! k = Some p ∧
          (is_public p = true ∨ user_id u ∈ shared_with p)) ∧
  NoDup l ∧
  NoDup l.*1 ∧
  StronglySorted (λ a b, date_posted b.2 ≤ date_posted a.2) l.
Proof.
  intros l. subst l. split; [done |].
  split; [| split; [| split; [| split]]].
  - intros Hs k p. rewrite elem_of_get_queryset, Hs. intuition.
  - intros Hs k p. rewrite elem_of_get_queryset, Hs. intuition discriminate.
  - apply NoDup_get_queryset.
  - apply NoDup_get_queryset_pk.
  - apply Sorted_StronglySorted.
    + intros a b c. lia.
    + apply Sorted_get_queryset.
Qed.

Lemma list_posts_witness :
  (2, Sample.news) ∈ PostListView.get_queryset Sample.carol Sample.db ∧
  (3, Sample.diary) ∈ PostListView.get_queryset Sample.root Sample.db.
Proof.
  split.
  - destruct (list_posts Sample.carol Sample.db) as (_ & _ & H & _).
    apply (H eq_refl 2 Sample.news). split; [reflexivity | left; reflexivity].
  - destruct (list_posts Sample.root Sample.db) as (_ & H & _).
    apply (H eq_refl 3 Sample.diary). reflexivity.
Defined.

(** The public post that is also shared with Carol is listed once, after
    nothing newer that she may see. *)
Example list_posts_carol :
  PostListView.get_queryset Sample.carol Sample.db
  = [(2, Sample.news); (1, Sample.hello)].
Proof. vm_compute. reflexivity. Qed.

Example list_posts_root :
  PostListView.get_queryset Sample.root Sample.db
  = [(3, Sample.diary); (2, Sample.news); (1, Sample.hello)].
Proof. vm_compute. reflexivity. Qed.

(** C9: a private post that its author, not a superuser, has shared with
    nobody is missing from the author's own listing, although the detail
    view shows it to them. *)
Theorem own_private_post_not_listed (u : User) (db : DB) (k : Z) (p : Post) :
  posts db !! k = Some p →
  author p = user_id u →
  is_public p = false →
  user_id u ∉ shared_with p →
  user_is_superuser u = false →
  ((k, p) ∉ PostListView.get_queryset u db) ∧
  (k ∉ (PostListView.get_queryset u db).*1) ∧
  PostDetailView.dispatch (AuthenticatedUser u) k db
    = reply (render_post_detail (k, p)).
Proof.
  intros Hp Hauthor Hpriv Hshared Hsuper.
  assert (Hnot : (k, p) ∉ PostListView.get_queryset u db).
  { rewrite elem_of_get_queryset, Hsuper, Hpriv. intuition discriminate. }
  split; [done |]. split.
  - intros ([k' p'] & Hk & Hin)%list_elem_of_fmap. simpl in Hk. subst k'.
    assert (p' = p) as ->.
    { apply elem_of_get_queryset in Hin as [Hp' _]. congruence. }
    done.
  - unfold PostDetailView.dispatch, get_object. rewrite Hp.
    unfold PostDetailView.test_func. rewrite Hpriv. simpl.
    by rewrite bool_decide_eq_true_2.
Qed.

Lemma own_private_post_not_listed_witness :
  ((3, Sample.diary) ∉ PostListView.get_queryset Sample.alice Sample.db) ∧
  (3 ∉ (PostListView.get_queryset Sample.alice Sample.db).*1) ∧
  PostDetailView.dispatch (AuthenticatedUser Sample.alice) 3 Sample.db
    = reply (render_post_detail (3, Sample.diary)).
Proof.
  apply (own_private_post_not_listed Sample.alice Sample.db 3 Sample.diary).
  - reflexivity.
  - reflexivity.
  - reflexivity.
  - vm_compute. discriminate.
  - reflexivity.
Defined.

(** ** Deletion *)




Example delete_removes_document :
  documents (PostDeleteView.dispatch Sample.delete_request 1 Sample.db).2 = ∅.
Proof. vm_compute. reflexivity. Qed.

(** ** New keys *)

Lemma foldr_max_ge (l : list Z) (k : Z) : k ∈ l → k ≤ foldr Z.max 0 l.
Proof.
  induction l as [|x l IH]; simpl.
  - intros H. by apply elem_of_nil in H.
  - intros [-> | H]%elem_of_cons; [lia |]. specialize (IH H). lia.
Qed.

Lemma max_key_ge {A : Type} (table : gmap Z A) (k : Z) :
  is_Some (table !! k) → k ≤ max_key table.
Proof.
  intros [x Hx]. apply foldr_max_ge.
  apply list_elem_of_fmap. exists (k, x). split; [done |].
  by apply elem_of_map_to_list.
Qed.

(** The key given to a new row is above the sequence and above every key
    in the table, so it is not in the table. *)
Lemma next_pk_above {A : Type} (seq : Z) (table : gmap Z A) (k : Z) :
  is_Some (table !! k) → k < next_pk seq table.
Proof. intros H%max_key_ge. unfold next_pk. lia. Qed.

Lemma next_pk_fresh {A : Type} (seq : Z) (table : gmap Z A) :
  table !! next_pk seq table = None.
Proof.
  destruct (table !! next_pk seq table) as [x|] eqn:H; [| done].
  assert (next_pk seq table < next_pk seq table); [| lia].
  apply next_pk_above. eauto.
Qed.

(** ** Create and update with a rejected formset *)

(** An exception inside the block is what makes [transaction.atomic]
    restore the store; a [return] does not. *)
Lemma transaction_atomic_raise {A R : Type} (body : DB → Exit A R * DB)
    (db db' : DB) (e : Exn) :
  body db = (Raise e, db') → transaction_atomic body db = (Raise e, db).
Proof. intros H. unfold transaction_atomic. by rewrite H. Qed.

Lemma transaction_atomic_return {A R : Type} (body : DB → Exit A R * DB)
    (db db' : DB) (r : R) :
  body db = (Return r, db') → transaction_atomic body db = (Return r, db').
Proof. intros H. unfold transaction_atomic. by rewrite H. Qed.

(** In the create view a valid post form with a rejected formset leaves
    the new post row in the store: the [else] branch returns from inside
    the atomic block, which commits the insert made just before. *)
Lemma create_rejected_formset_keeps_post (u : User) (request : Request) (db : DB) :
  user request = AuthenticatedUser u →
  user_is_staff u = true →
  method request = POST →
  PostForm.is_valid u db (POST_post request) = true →
  DocumentFormSet.is_valid None db (POST_documents request) = false →
  let k := next_pk (post_seq db) (posts db) in
  posts db !! k = None ∧
  (PostCreateView.dispatch request db).1
    = PostCreateView.form_invalid document_formset_errors ∧
  posts (PostCreateView.dispatch request db).2
    = <[k := PostForm.new_instance u (now request) (POST_post request)]> (posts db) ∧
  documents (PostCreateView.dispatch request db).2 = documents db.
Proof.
  intros Hu Hstaff Hm Hform Hset k. split.
  { apply next_pk_fresh. }
  unfold PostCreateView.dispatch, PostCreateView.test_func.
  rewrite Hu. simpl. rewrite Hstaff, Hm, Hform. simpl.
  unfold PostCreateView.form_valid, transaction_atomic, PostForm.save.
  unfold DocumentFormSet.is_valid, DocumentFormSet.form_is_valid in *.
  simpl. rewrite Hset. done.
Qed.

(** In the update view the same path leaves the edited post fields in the
    store. *)
Lemma update_rejected_formset_keeps_post
    (u : User) (request : Request) (pk : Z) (old : Post) (db : DB) :
  user request = AuthenticatedUser u →
  posts db !! pk = Some old →
  PostUpdateView.test_func (user request) old = true →
  method request = POST →
  PostForm.is_valid u db (POST_post request) = true →
  DocumentFormSet.is_valid (Some pk) db (POST_documents request) = false →
  (PostUpdateView.dispatch request pk db).1
    = PostUpdateView.form_invalid document_formset_errors ∧
  posts (PostUpdateView.dispatch request pk db).2
    = <[pk := PostForm.updated_instance old (POST_post request)]> (posts db) ∧
  documents (PostUpdateView.dispatch request pk db).2 = documents db.
Proof.
  intros Hu Hold Htest Hm Hform Hset.
  unfold PostUpdateView.dispatch, get_object.
  rewrite Hu in *. rewrite Hold, Htest, Hm, Hform. simpl.
  unfold PostUpdateView.form_valid, transaction_atomic, PostForm.save.
  unfold DocumentFormSet.is_valid, DocumentFormSet.form_is_valid in *.
  simpl. rewrite Hset. done.
Qed.

(** C1, which the views break: Alice submits a valid post with four
    document forms of which one has no file.  The create view answers with
    the form and its errors, and the store holds the new post row 4 with
    none of its documents.  The same rejected formset on an update of post 1
    leaves the edited title, text and visibility stored. *)
Theorem rejected_formset_is_not_atomic :
  DocumentFormSet.is_valid None Sample.db
    (POST_documents Sample.create_request) = false ∧
  spec_outcome (PostCreateView.dispatch Sample.create_request Sample.db).1
    = ValidationError ∧
  posts Sample.db !! 4 = None ∧
  posts (PostCreateView.dispatch Sample.create_request Sample.db).2 !! 4
    = Some (PostForm.new_instance Sample.alice 400 Sample.trip) ∧
  documents (PostCreateView.dispatch Sample.create_request Sample.db).2
    = documents Sample.db ∧
  DocumentFormSet.is_valid (Some 1) Sample.db
    (POST_documents Sample.update_request) = false ∧
  spec_outcome (PostUpdateView.dispatch Sample.update_request 1 Sample.db).1
    = ValidationError ∧
  posts Sample.db !! 1 = Some Sample.hello ∧
  posts (PostUpdateView.dispatch Sample.update_request 1 Sample.db).2 !! 1
    = Some (PostForm.updated_instance Sample.hello Sample.hello_edited) ∧
  PostForm.updated_instance Sample.hello Sample.hello_edited ≠ Sample.hello.
Proof.
  repeat split; try (vm_compute; reflexivity).
  intros H. apply (f_equal title) in H. discriminate H.
Qed.

(** With every form accepted the create view stores the post and its three
    documents. *)
Example create_accepted_formset :
  let db' := (PostCreateView.dispatch Sample.create_request_ok Sample.db).2 in
  spec_outcome (PostCreateView.dispatch Sample.create_request_ok Sample.db).1
    = Succeeded ∧
  size (posts db') = 4%nat ∧
  size (filter (λ kv, post kv.2 = 4) (documents db')) = 3%nat.
Proof. repeat split; vm_compute; reflexivity. Qed.

(** * Further properties of the views *)

(** ** What saving a formset touches *)

Section formset_frame.

Import DocumentFormSet.

Lemma documents_changed_only_for_refl (pk : Z) (db : DB) :
  documents_changed_only_for pk db db.
Proof. repeat split; auto. Qed.

Lemma documents_changed_only_for_trans (pk : Z) (db1 db2 db3 : DB) :
  documents_changed_only_for pk db1 db2 →
  documents_changed_only_for pk db2 db3 →
  documents_changed_only_for pk db1 db3.
Proof.
  intros (Hu1 & Hp1 & Hk1 & Hn1) (Hu2 & Hp2 & Hk2 & Hn2).
  repeat split; [congruence | congruence | |].
  - intros k d Hd Hne. eauto.
  - intros k d Hd. destruct (Hn2 k d Hd) as [H | H]; eauto.
Qed.

Lemma save_existing_frame (pk : Z) (db : DB) (f : DocumentFormData) :
  documents_changed_only_for pk db (save_existing pk db f).
Proof.
  unfold save_existing.
  destruct (data_id f) as [k|]; [| apply documents_changed_only_for_refl].
  destruct (documents db !! k) as [d|] eqn:Hk;
    [| apply documents_changed_only_for_refl].
  case_bool_decide as Hpost; simpl; [| apply documents_changed_only_for_refl].
  destruct (data_DELETE f); repeat split; simpl.
  - intros k' d' Hd' Hne. rewrite lookup_delete_ne; [done |].
    intros ->. congruence.
  - intros k' d' [Hne Hd']%lookup_delete_Some. by left.
  - intros k' d' Hd' Hne. rewrite lookup_insert_ne; [done |].
    intros ->. congruence.
  - intros k' d' Hd'. destruct (decide (k = k')) as [-> | Hne].
    + rewrite lookup_insert_eq in Hd'. injection Hd' as <-. by right.
    + rewrite lookup_insert_ne in Hd' by done. by left.
Qed.

Lemma save_new_frame (pk : Z) (db : DB) (f : DocumentFormData) :
  documents_changed_only_for pk db (save_new pk db f).
Proof.
  unfold save_new.
  destruct (data_id f) as [k|]; [apply documents_changed_only_for_refl |].
  destruct (data_file f) as [up|]; [| apply documents_changed_only_for_refl].
  destruct (data_DELETE f); [apply documents_changed_only_for_refl |].
  pose proof (next_pk_fresh (document_seq db) (documents db)) as Hfresh.
  repeat split; simpl.
  - intros k' d' Hd' Hne. rewrite lookup_insert_ne; [done |].
    intros <-. congruence.
  - intros k' d' Hd'.
    destruct (decide (next_pk (document_seq db) (documents db) = k'))
      as [<- | Hne].
    + rewrite lookup_insert_eq in Hd'. injection Hd' as <-. by right.
    + rewrite lookup_insert_ne in Hd' by done. by left.
Qed.

Lemma foldl_frame (pk : Z) (step : DB → DocumentFormData → DB)
    (forms : list DocumentFormData) (db : DB) :
  (∀ db0 f, documents_changed_only_for pk db0 (step db0 f)) →
  documents_changed_only_for pk db (foldl step db forms).
Proof.
  intros Hstep. revert db.
  induction forms as [|f forms IH]; intros db; simpl.
  - apply documents_changed_only_for_refl.
  - eapply documents_changed_only_for_trans; [apply Hstep | apply IH].
Qed.

(** Saving a formset for post [pk] keeps the user and post tables, keeps
    every document of another post, and every row it adds or rewrites
    belongs to [pk]. *)
Lemma save_frame (pk : Z) (forms : list DocumentFormData) (db : DB) :
  documents_changed_only_for pk db (save pk forms db).
Proof.
  unfold save.
  eapply documents_changed_only_for_trans;
    apply foldl_frame; auto using save_existing_frame, save_new_frame.
Qed.

End formset_frame.

(** Referential integrity survives a change that only touches documents of
    a post that exists. *)
Lemma fk_integrity_frame (pk : Z) (db db' : DB) :
  documents_changed_only_for pk db db' →
  is_Some (posts db !! pk) →
  fk_integrity db → fk_integrity db'.
Proof.
  intros (_ & Hp & _ & Hn) Hpk Hfk k d Hd. simpl. rewrite Hp.
  destruct (Hn k d Hd) as [H | ->]; [by eapply (Hfk k d) | done].
Qed.

Lemma Sample_fk_integrity : fk_integrity Sample.db.
Proof.
  intros k d Hd. destruct (decide (k = 1)) as [-> | Hne].
  - vm_compute in Hd. injection Hd as <-. vm_compute. eauto.
  - unfold Sample.db in Hd. simpl in Hd.
    rewrite lookup_singleton_ne in Hd by done. discriminate.
Qed.

(** ** The store after an update or a create *)

(** Either the update view hands the store back as it got it, or the
    caller passed every gate, and then the post row is the edited instance
    and only documents of that post may differ. *)
Lemma update_store (request : Request) (pk : Z) (db : DB) :
  let db' := (PostUpdateView.dispatch request pk db).2 in
  db' = db ∨
  ∃ u old,
    user request = AuthenticatedUser u ∧
    posts db !! pk = Some old ∧
    PostUpdateView.test_func (user request) old = true ∧
    method request = POST ∧
    PostForm.is_valid u db (POST_post request) = true ∧
    users db' = users db ∧
    posts db'
      = <[pk := PostForm.updated_instance old (POST_post request)]> (posts db) ∧
    (∀ k d, documents db !! k = Some d → post d ≠ pk →
            documents db' !! k = Some d) ∧
    (∀ k d, documents db' !! k = Some d →
            documents db !! k = Some d ∨ post d = pk).
Proof.
  unfold PostUpdateView.dispatch, get_object.
  destruct (user request) as [|u] eqn:Hu; [by left |].
  destruct (posts db !! pk) as [old|] eqn:Hold; [| by left].
  destruct (PostUpdateView.test_func (AuthenticatedUser u) old) eqn:Htest;
    [| by left].
  destruct (method request) eqn:Hm; try (by left).
  destruct (PostForm.is_valid u db (POST_post request)) eqn:Hform; [| by left].
  simpl. right. exists u, old. do 5 (split; [done |]).
  unfold PostUpdateView.form_valid, transaction_atomic, PostForm.save.
  set (inst := PostForm.updated_instance old (POST_post request)).
  set (db1 := {| users := users db; posts := <[pk:=inst]> (posts db);
                 documents := documents db; post_seq := post_seq db;
                 document_seq := document_seq db |}).
  destruct (DocumentFormSet.is_valid (Some pk) db1 (POST_documents request)).
  - destruct (save_frame pk (POST_documents request) db1)
      as (Hus & Hps & Hkeep & Hnew).
    simpl. rewrite Hps. simpl. rewrite insert_insert_eq. done.
  - simpl. repeat split; auto.
Qed.

Lemma create_store (request : Request) (db : DB) :
  let db' := (PostCreateView.dispatch request db).2 in
  db' = db ∨
  ∃ u,
    user request = AuthenticatedUser u ∧
    user_is_staff u = true ∧
    method request = POST ∧
    PostForm.is_valid u db (POST_post request) = true ∧
    users db' = users db ∧
    posts db'
      = <[next_pk (post_seq db) (posts db) :=
            PostForm.new_instance u (now request) (POST_post request)]> (posts db) ∧
    (∀ k d, documents db !! k = Some d → post d ≠ next_pk (post_seq db) (posts db) →
            documents db' !! k = Some d) ∧
    (∀ k d, documents db' !! k = Some d →
            documents db !! k = Some d ∨ post d = next_pk (post_seq db) (posts db)).
Proof.
  unfold PostCreateView.dispatch, PostCreateView.test_func.
  destruct (user request) as [|u] eqn:Hu; [by left |].
  simpl. destruct (user_is_staff u) eqn:Hstaff; [| by left].
  destruct (method request) eqn:Hm; try (by left).
  destruct (PostForm.is_valid u db (POST_post request)) eqn:Hform; [| by left].
  simpl. right. exists u. do 4 (split; [done |]).
  unfold PostCreateView.form_valid, transaction_atomic, PostForm.save.
  set (k := next_pk (post_seq db) (posts db)).
  set (inst := PostForm.new_instance u (now request) (POST_post request)).
  set (db1 := {| users := users db; posts := <[k:=inst]> (posts db);
                 documents := documents db; post_seq := k;
                 document_seq := document_seq db |}).
  destruct (DocumentFormSet.is_valid None db1 (POST_documents request)).
  - destruct (save_frame k (POST_documents request) db1)
      as (Hus & Hps & Hkeep & Hnew).
    simpl. rewrite Hps. simpl. rewrite insert_insert_eq. done.
  - simpl. repeat split; auto.
Qed.

(** X1: the update view changes no post but the one addressed, and of
    that one it keeps the author and the posting time, whatever the
    request. *)
Theorem update_keeps_author_and_other_posts
    (request : Request) (pk : Z) (db : DB) (old : Post) :
  posts db !! pk = Some old →
  let db' := (PostUpdateView.dispatch request pk db).2 in
  users db' = users db ∧
  (∀ k, k ≠ pk → posts db' !! k = posts db !! k) ∧
  ∃ new, posts db' !! pk = Some new ∧ author new = author old
         ∧ date_posted new = date_posted old.
Proof.
  intros Hold db'. subst db'.
  destruct (update_store request pk db)
    as [-> | (u & old' & _ & Hold' & _ & _ & _ & Hus & Hps & _)].
  - split; [done |]. split; [done |]. by exists old.
  - assert (old' = old) as -> by congruence.
    split; [done |]. rewrite Hps. split.
    + intros k Hne. by rewrite lookup_insert_ne.
    + eexists. rewrite lookup_insert_eq. done.
Qed.

Lemma update_keeps_author_and_other_posts_witness :
  let db' := (PostUpdateView.dispatch Scenario.update_request_ok 1 Sample.db).2 in
  users db' = users Sample.db ∧
  (∀ k, k ≠ 1 → posts db' !! k = posts Sample.db !! k) ∧
  ∃ new, posts db' !! 1 = Some new ∧ author new = author Sample.hello
         ∧ date_posted new = date_posted Sample.hello.
Proof.
  apply (update_keeps_author_and_other_posts Scenario.update_request_ok 1
           Sample.db Sample.hello).
  reflexivity.
Defined.

(** X2: the update view leaves the documents of every other post as they
    were, every document row it writes belongs to the edited post, and a
    store in which each document points at a post stays so. *)
Theorem update_touches_only_own_documents
    (request : Request) (pk : Z) (db : DB) :
  let db' := (PostUpdateView.dispatch request pk db).2 in
  (∀ k d, documents db !! k = Some d → post d ≠ pk →
          documents db' !! k = Some d) ∧
  (∀ k d, documents db' !! k = Some d →
          documents db !! k = Some d ∨ post d = pk) ∧
  (fk_integrity db → fk_integrity db').
Proof.
  intros db'. subst db'.
  destruct (update_store request pk db)
    as [-> | (u & old & _ & Hold & _ & _ & _ & Hus & Hps & Hkeep & Hnew)].
  - repeat split; auto.
  - split; [done |]. split; [done |].
    intros Hfk k d Hd. simpl. rewrite Hps.
    destruct (Hnew k d Hd) as [H | ->].
    + destruct (decide (post d = pk)) as [-> | Hne].
      * by rewrite lookup_insert_eq.
      * rewrite lookup_insert_ne by done. by eapply (Hfk k d).
    + by rewrite lookup_insert_eq.
Qed.

Lemma update_touches_only_own_documents_witness :
  fk_integrity (PostUpdateView.dispatch Scenario.update_request_ok 1 Sample.db).2.
Proof.
  apply (update_touches_only_own_documents Scenario.update_request_ok 1 Sample.db).
  apply Sample_fk_integrity.
Defined.

Lemma fresh_post_is_new (db : DB) :
  posts db !! next_pk (post_seq db) (posts db) = None.
Proof. apply next_pk_fresh. Qed.

(** X3: whatever the request, the create view leaves every post and
    document row it found in place, adds at most one post, and keeps
    every document pointing at a post. *)
Theorem create_keeps_existing_rows (request : Request) (db : DB) :
  fk_integrity db →
  let db' := (PostCreateView.dispatch request db).2 in
  users db' = users db ∧
  (∀ k p, posts db !! k = Some p → posts db' !! k = Some p) ∧
  (∀ k d, documents db !! k = Some d → documents db' !! k = Some d) ∧
  (size (posts db') ≤ S (size (posts db)))%nat ∧
  fk_integrity db'.
Proof.
  intros Hfk db'. subst db'.
  pose proof (fresh_post_is_new db) as Hfresh.
  destruct (create_store request db)
    as [-> | (u & _ & _ & _ & _ & Hus & Hps & Hkeep & Hnew)].
  - repeat split; auto.
  - split; [done |]. rewrite Hps. split; [| split; [| split]].
    + intros k p Hk. rewrite lookup_insert_ne; [done |]. congruence.
    + intros k d Hd. apply Hkeep; [done |].
      intros Heq. destruct (Hfk k d Hd) as [p Hp]. simpl in Hp. congruence.
    + by rewrite map_size_insert_None.
    + intros k d Hd. simpl. rewrite Hps.
      destruct (Hnew k d Hd) as [H | ->].
      * destruct (Hfk k d H) as [p Hp]. simpl in Hp.
        rewrite lookup_insert_ne; [eauto |]. congruence.
      * by rewrite lookup_insert_eq.
Qed.

Lemma create_keeps_existing_rows_witness :
  let db' := (PostCreateView.dispatch Sample.create_request_ok Sample.db).2 in
  users db' = users Sample.db ∧
  (∀ k p, posts Sample.db !! k = Some p → posts db' !! k = Some p) ∧
  (∀ k d, documents Sample.db !! k = Some d → documents db' !! k = Some d) ∧
  (size (posts db') ≤ S (size (posts Sample.db)))%nat ∧
  fk_integrity db'.
Proof.
  apply (create_keeps_existing_rows Sample.create_request_ok Sample.db).
  apply Sample_fk_integrity.
Defined.

(** X4: a staff user whose plain submission (ASCII texts, uploads with
    plain names) has its post form and its formset accepted gets the
    success notice and the redirect to the listing; exactly one post row is
    added, holding the cleaned values, under the next key of the
    sequence, which is above every key the table holds or has given out;
    and every document row that was not there before belongs to that
    post. *)
Theorem create_success (u : User) (request : Request) (db : DB) :
  user request = AuthenticatedUser u →
  user_is_staff u = true →
  method request = POST →
  plain_submission u request db = true →
  PostForm.is_valid u db (POST_post request) = true →
  DocumentFormSet.is_valid None db (POST_documents request) = true →
  let k := next_pk (post_seq db) (posts db) in
  let db' := (PostCreateView.dispatch request db).2 in
  (PostCreateView.dispatch request db).1
    = reply_with success "Post created successfully!" (redirect post_list) ∧
  post_seq db < k ∧
  (∀ k', is_Some (posts db !! k') → k' < k) ∧
  posts db'
    = <[k := PostForm.new_instance u (now request) (POST_post request)]> (posts db) ∧
  size (posts db') = S (size (posts db)) ∧
  (∀ k' d, documents db' !! k' = Some d → documents db !! k' = None →
           post d = k).
Proof.
  intros Hu Hstaff Hm _ Hform Hset k db'. subst db'.
  pose proof (fresh_post_is_new db) as Hfresh. fold k in Hfresh.
  assert (Hreply : (PostCreateView.dispatch request db).1
            = reply_with success "Post created successfully!"
                (redirect post_list)
          ∧ posts (PostCreateView.dispatch request db).2 !! k
            = Some (PostForm.new_instance u (now request) (POST_post request))).
  { unfold PostCreateView.dispatch, PostCreateView.test_func.
    rewrite Hu. simpl. rewrite Hstaff, Hm, Hform. simpl.
    unfold PostCreateView.form_valid, transaction_atomic, PostForm.save.
    unfold DocumentFormSet.is_valid, DocumentFormSet.form_is_valid in *.
    simpl. rewrite Hset. simpl. split; [done |]. by rewrite lookup_insert_eq. }
  destruct Hreply as [Hreply Hrow].
  split; [done |].
  split; [unfold k, next_pk; lia |].
  split; [intros k' Hk'; by apply next_pk_above |].
  destruct (create_store request db)
    as [Heq | (u' & Hu' & _ & _ & _ & Hus & Hps & Hkeep & Hnew)].
  - rewrite Heq in Hrow. congruence.
  - assert (u' = u) as -> by congruence. fold k in Hps, Hnew.
    split; [done |]. split.
    + rewrite Hps. by rewrite map_size_insert_None.
    + intros k' d Hd Hnone. destruct (Hnew k' d Hd) as [H | H]; [congruence | done].
Qed.

Lemma create_success_witness :
  let k := next_pk (post_seq Sample.db) (posts Sample.db) in
  let db' := (PostCreateView.dispatch Sample.create_request_ok Sample.db).2 in
  (PostCreateView.dispatch Sample.create_request_ok Sample.db).1
    = reply_with success "Post created successfully!" (redirect post_list) ∧
  post_seq Sample.db < k ∧
  (∀ k', is_Some (posts Sample.db !! k') → k' < k) ∧
  posts db'
    = <[k := PostForm.new_instance Sample.alice 400 Sample.trip]> (posts Sample.db) ∧
  size (posts db') = S (size (posts Sample.db)) ∧
  (∀ k' d, documents db' !! k' = Some d → documents Sample.db !! k' = None →
           post d = k).
Proof.
  apply (create_success Sample.alice Sample.create_request_ok Sample.db);
    reflexivity.
Defined.

(** On a table that was never used the first key is 1, and a key that was
    given out is not given again after its row is deleted. *)
Example keys_are_not_reused :
  next_pk 0 (∅ : gmap Z Post) = 1 ∧
  next_pk (post_seq Sample.db) (delete 3 (posts Sample.db)) = 4.
Proof. split; vm_compute; reflexivity. Qed.

(** What a cleaned character field guarantees. *)
Lemma CharField_clean_Some (required : bool) (max_length : option nat)
    (raw v : string) :
  CharField_clean required max_length raw = Some v →
  v = strip raw ∧
  (required = true → v ≠ "") ∧
  (∀ n, max_length = Some n → (String.length v ≤ n)%nat) ∧
  has_nul v = false.
Proof.
  unfold CharField_clean.
  case_bool_decide as Hempty.
  - destruct required; [done |]. intros [= <-]. rewrite Hempty.
    split; [done |]. split; [done |]. split; [| done].
    intros n _. simpl. lia.
  - destruct (has_nul (strip raw)) eqn:Hnul; [done |].
    destruct max_length as [n|].
    + case_bool_decide as Hlen; [| done]. intros [= <-].
      split; [done |]. split; [done |]. split; [| done].
      by intros m [= <-].
    + intros [= <-]. split; [done |]. split; [done |]. split; [| done].
      by intros m.
Qed.

Lemma PostForm_is_valid_fields (u : User) (db : DB) (data : PostFormData) :
  PostForm.is_valid u db data = true →
  strip (data_title data) ≠ "" ∧
  (String.length (strip (data_title data)) ≤ Post_title_max_length)%nat ∧
  strip (data_content data) ≠ "" ∧
  ∀ k, k ∈ data_shared_with data → k ∈ dom (users db) ∧ k ≠ user_id u.
Proof.
  unfold PostForm.is_valid, PostForm.clean_title, PostForm.clean_content.
  rewrite !andb_true_iff, !bool_decide_eq_true, forallb_forall.
  intros [[[t Ht] [c Hc]] Hsh].
  apply CharField_clean_Some in Ht as (-> & Ht1 & Ht2 & _).
  apply CharField_clean_Some in Hc as (-> & Hc1 & _).
  split; [by apply Ht1 |]. split; [by apply Ht2 |]. split; [by apply Hc1 |].
  intros k Hk%list_elem_of_In. specialize (Hsh k Hk).
  apply bool_decide_eq_true in Hsh. unfold PostForm.shared_with_queryset in Hsh.
  set_solver.
Qed.

(** X5: a post row that appears through the create view was asked for by a
    staff user, carries that user as author and the request's time, has a
    non-empty title of at most 200 characters and a non-empty text, and is
    shared only with existing users other than its author. *)
Theorem create_adds_checked_rows (request : Request) (db : DB) (k : Z) (p : Post) :
  posts (PostCreateView.dispatch request db).2 !! k = Some p →
  posts db !! k = None →
  ∃ u, user request = AuthenticatedUser u ∧
       user_is_staff u = true ∧
       author p = user_id u ∧
       date_posted p = now request ∧
       title p ≠ "" ∧
       (String.length (title p) ≤ 200)%nat ∧
       content p ≠ "" ∧
       (user_id u ∉ shared_with p) ∧
       shared_with p ⊆ dom (users db).
Proof.
  intros Hk Hnone.
  destruct (create_store request db)
    as [Heq | (u & Hu & Hstaff & _ & Hform & _ & Hps & _)].
  - rewrite Heq in Hk. congruence.
  - rewrite Hps in Hk.
    destruct (decide (next_pk (post_seq db) (posts db) = k)) as [<- | Hne];
      [| rewrite lookup_insert_ne in Hk by done; congruence].
    rewrite lookup_insert_eq in Hk. injection Hk as <-.
    apply PostForm_is_valid_fields in Hform as (Ht & Hlen & Hc & Hsh).
    exists u. simpl. do 7 (split; [done |]). split.
    + intros Hin%elem_of_list_to_set. by destruct (Hsh _ Hin).
    + intros x Hin%elem_of_list_to_set. by destruct (Hsh _ Hin).
Qed.

Lemma create_adds_checked_rows_witness :
  ∃ u, user Sample.create_request_ok = AuthenticatedUser u ∧
       user_is_staff u = true ∧
       author (PostForm.new_instance Sample.alice 400 Sample.trip) = user_id u ∧
       date_posted (PostForm.new_instance Sample.alice 400 Sample.trip)
         = now Sample.create_request_ok ∧
       title (PostForm.new_instance Sample.alice 400 Sample.trip) ≠ "" ∧
       (String.length (title (PostForm.new_instance Sample.alice 400 Sample.trip))
        ≤ 200)%nat ∧
       content (PostForm.new_instance Sample.alice 400 Sample.trip) ≠ "" ∧
       (user_id u ∉ shared_with (PostForm.new_instance Sample.alice 400 Sample.trip)) ∧
       shared_with (PostForm.new_instance Sample.alice 400 Sample.trip)
         ⊆ dom (users Sample.db).
Proof.
  apply (create_adds_checked_rows Sample.create_request_ok Sample.db 4).
  - vm_compute. reflexivity.
  - vm_compute. reflexivity.
Defined.

(** X6: the store changes only behind the gates.  A create changes it only
    for a staff user sending a POST with an accepted post form; an update
    only for the author or a superuser of an existing post sending a POST
    with an accepted post form; a delete only for the author or a
    superuser of an existing post sending a POST or a DELETE.  No other
    request method, and no refused request, writes. *)
Theorem store_changes_only_behind_gates (request : Request) (pk : Z) (db : DB) :
  ((PostCreateView.dispatch request db).2 ≠ db →
   ∃ u, user request = AuthenticatedUser u ∧ user_is_staff u = true ∧
        method request = POST ∧
        PostForm.is_valid u db (POST_post request) = true) ∧
  ((PostUpdateView.dispatch request pk db).2 ≠ db →
   ∃ u old, user request = AuthenticatedUser u ∧ posts db !! pk = Some old ∧
            (user_id u = author old ∨ user_is_superuser u = true) ∧
            method request = POST ∧
            PostForm.is_valid u db (POST_post request) = true) ∧
  ((PostDeleteView.dispatch request pk db).2 ≠ db →
   ∃ u old, user request = AuthenticatedUser u ∧ posts db !! pk = Some old ∧
            (user_id u = author old ∨ user_is_superuser u = true) ∧
            (method request = POST ∨ method request = DELETE)).
Proof.
  split; [| split].
  - intros Hne.
    destruct (create_store request db)
      as [Heq | (u & Hu & Hstaff & Hm & Hform & _)]; [done |].
    by exists u.
  - intros Hne.
    destruct (update_store request pk db)
      as [Heq | (u & old & Hu & Hold & Htest & Hm & Hform & _)]; [done |].
    exists u, old. do 2 (split; [done |]). split; [| done].
    apply modify_test_func_true in Htest as (u' & Hu' & H).
    rewrite Hu in Hu'. by injection Hu' as <-.
  - unfold PostDeleteView.dispatch, get_object.
    destruct (user request) as [|u] eqn:Hu; [done |].
    destruct (posts db !! pk) as [old|] eqn:Hold; [| done].
    destruct (PostDeleteView.test_func (AuthenticatedUser u) old) eqn:Htest;
      [| done].
    apply modify_test_func_true in Htest as (u' & [= <-] & Hwho).
    destruct (method request) eqn:Hm; try done; intros _; exists u, old; auto.
Qed.

Lemma store_changes_only_behind_gates_witness :
  ∃ u old, user Scenario.delete_verb = AuthenticatedUser u ∧
           posts Sample.db !! 1 = Some old ∧
           (user_id u = author old ∨ user_is_superuser u = true) ∧
           (method Scenario.delete_verb = POST
            ∨ method Scenario.delete_verb = DELETE).
Proof.
  apply (proj2 (proj2 (store_changes_only_behind_gates
                         Scenario.delete_verb 1 Sample.db))).
  intros Heq. apply (f_equal (λ d, posts d !! 1)) in Heq.
  vm_compute in Heq. discriminate Heq.
Defined.

(** The DELETE verb removes the post like the confirmed POST does, but
    queues no notice. *)
Example delete_verb_deletes :
  PostDeleteView.dispatch Scenario.delete_verb 1 Sample.db
  = (reply (redirect post_list),
     (PostDeleteView.dispatch Sample.delete_request 1 Sample.db).2).
Proof. vm_compute. reflexivity. Qed.

(** ** Order of the gates *)

(** X7: in the update and delete views the login check comes before the
    lookup of the post and the lookup before the permission test.  An
    anonymous caller gets the view's own notice and a redirect to the
    detail page even for a post that does not exist, and is never sent to
    the login page; a logged-in caller gets 404 for a missing post whatever
    their rights; and a logged-in caller who is neither author nor
    superuser is refused by the delete view with the store untouched. *)
Theorem modify_gates_order (request : Request) (pk : Z) (db : DB) :
  (user request = AnonymousUser →
   PostUpdateView.dispatch request pk db
     = (PostUpdateView.handle_no_permission pk, db) ∧
   PostDeleteView.dispatch request pk db
     = (PostDeleteView.handle_no_permission pk, db) ∧
   PostCreateView.dispatch request db
     = (PostCreateView.handle_no_permission, db) ∧
   spec_outcome (PostUpdateView.dispatch request pk db).1 = Forbidden) ∧
  (is_authenticated (user request) = true → posts db !! pk = None →
   PostUpdateView.dispatch request pk db = (reply Http404, db) ∧
   PostDeleteView.dispatch request pk db = (reply Http404, db)) ∧
  (∀ p, is_authenticated (user request) = true → posts db !! pk = Some p →
        PostDeleteView.test_func (user request) p = false →
        PostDeleteView.dispatch request pk db
          = (PostDeleteView.handle_no_permission pk, db) ∧
        spec_outcome (PostDeleteView.dispatch request pk db).1 = Forbidden).
Proof.
  unfold PostUpdateView.dispatch, PostDeleteView.dispatch,
    PostCreateView.dispatch, get_object.
  split; [| split].
  - intros ->. done.
  - intros Hauth Hnone. rewrite Hnone.
    by destruct (user request).
  - intros p Hauth Hp Htest. rewrite Hp, Htest.
    by destruct (user request).
Qed.

Lemma modify_gates_order_witness :
  PostUpdateView.dispatch Scenario.anonymous_post 77 Sample.db
    = (PostUpdateView.handle_no_permission 77, Sample.db) ∧
  PostDeleteView.dispatch Scenario.bob_post 77 Sample.db
    = (reply Http404, Sample.db) ∧
  PostDeleteView.dispatch Scenario.bob_post 1 Sample.db
    = (PostDeleteView.handle_no_permission 1, Sample.db).
Proof.
  split; [| split].
  - apply (proj1 (modify_gates_order Scenario.anonymous_post 77 Sample.db)).
    reflexivity.
  - apply (proj1 (proj2 (modify_gates_order Scenario.bob_post 77 Sample.db)));
      reflexivity.
  - apply (proj2 (proj2 (modify_gates_order Scenario.bob_post 1 Sample.db))
             Sample.hello); reflexivity.
Defined.

(** ** Listing against viewing *)

(** X8: every post the list view shows a user can be opened by that user
    in the detail view. *)
Theorem listed_posts_are_viewable (u : User) (db : DB) (k : Z) (p : Post) :
  (k, p) ∈ PostListView.get_queryset u db →
  PostDetailView.test_func (AuthenticatedUser u) p = true ∧
  PostDetailView.dispatch (AuthenticatedUser u) k db
    = reply (render_post_detail (k, p)).
Proof.
  intros [Hp Hwhy]%elem_of_get_queryset.
  assert (Htest : PostDetailView.test_func (AuthenticatedUser u) p = true).
  { rewrite PostDetailView_test_func_unfold. simpl.
    destruct Hwhy as [-> | [-> | Hsh]].
    - by rewrite !orb_true_r.
    - done.
    - rewrite (bool_decide_eq_true_2 _ Hsh). by rewrite !orb_true_r. }
  split; [done |].
  unfold PostDetailView.dispatch, get_object. by rewrite Hp, Htest.
Qed.

Lemma listed_posts_are_viewable_witness :
  PostDetailView.test_func (AuthenticatedUser Sample.carol) Sample.hello = true ∧
  PostDetailView.dispatch (AuthenticatedUser Sample.carol) 1 Sample.db
    = reply (render_post_detail (1, Sample.hello)).
Proof.
  apply (listed_posts_are_viewable Sample.carol Sample.db 1 Sample.hello).
  rewrite list_posts_carol. apply list_elem_of_In. right. left. reflexivity.
Defined.

(** ** The home page *)

Section home_page.

Import PostListView.

Local Instance newer_first_total_home : Total newer_first.
Proof. intros a b. unfold newer_first. lia. Qed.

Lemma elem_of_home_queryset (db : DB) (k : Z) (p : Post) :
  (k, p) ∈ (HomePageView.get_queryset db).2 ↔
  posts db !! k = Some p ∧ is_public p = true.
Proof.
  unfold HomePageView.get_queryset, order_by_date_posted_desc. simpl.
  rewrite merge_sort_Permutation, list_elem_of_filter, elem_of_map_to_list.
  simpl. tauto.
Qed.

Lemma NoDup_home_queryset (db : DB) : NoDup (HomePageView.get_queryset db).2.
Proof.
  unfold HomePageView.get_queryset, order_by_date_posted_desc. simpl.
  rewrite merge_sort_Permutation. apply NoDup_filter, NoDup_map_to_list.
Qed.

Lemma Sorted_home_queryset (db : DB) :
  Sorted newer_first (HomePageView.get_queryset db).2.
Proof.
  unfold HomePageView.get_queryset, order_by_date_posted_desc. simpl.
  apply (Sorted_merge_sort _).
Qed.

End home_page.

Lemma anonymous_test_func (p : Post) :
  PostDetailView.test_func AnonymousUser p = is_public p.
Proof. unfold PostDetailView.test_func. by destruct (is_public p). Qed.

(** X9: the home page queryset holds exactly the public posts, which are
    exactly the posts an anonymous visitor can open in the detail view,
    each once and newest first; and every one of them is also in the
    listing of every logged-in user. *)
Theorem home_page_lists_public_posts (db : DB) :
  let out := HomePageView.get_queryset db in
  (∀ k p, (k, p) ∈ out.2 ↔ posts db !! k = Some p ∧ is_public p = true) ∧
  (∀ k p, (k, p) ∈ out.2 ↔
          posts db !! k = Some p ∧
          PostDetailView.test_func AnonymousUser p = true) ∧
  (∀ u k p, (k, p) ∈ out.2 → (k, p) ∈ PostListView.get_queryset u db) ∧
  NoDup out.2.*1 ∧
  StronglySorted (λ a b, date_posted b.2 ≤ date_posted a.2) out.2.
Proof.
  intros out. subst out.
  split; [apply elem_of_home_queryset |].
  split; [| split; [| split]].
  - intros k p. rewrite anonymous_test_func. apply elem_of_home_queryset.
  - intros u k p [Hp Hpub]%elem_of_home_queryset.
    apply elem_of_get_queryset. auto.
  - apply NoDup_fmap_fst; [| apply NoDup_home_queryset].
    intros k p1 p2 [H1 _]%elem_of_home_queryset [H2 _]%elem_of_home_queryset.
    congruence.
  - apply Sorted_StronglySorted.
    + intros a b c. lia.
    + apply Sorted_home_queryset.
Qed.

Lemma home_page_lists_public_posts_witness :
  (2, Sample.news) ∈ PostListView.get_queryset Sample.bob Sample.db.
Proof.
  destruct (home_page_lists_public_posts Sample.db) as (H1 & _ & H3 & _).
  apply H3. apply H1. split; reflexivity.
Defined.

Example home_page_sample :
  HomePageView.get_queryset Sample.db
  = ([ String "010"%char "--- DEBUG: HomePageView Queryset ---";
       "Number of public posts found in DB: 1";
       "Public post titles:";
       "  - 'News' (ID: 2, Is Public: True)";
       "--- END DEBUG ---" +:+ String "010"%char "" ],
     [(2, Sample.news)]).
Proof. vm_compute. reflexivity. Qed.

(** ** The label of a document *)

(** The text after the last occurrence of [c]. *)
Lemma slice_after_last_cons (c a : ascii) (s : string) :
  slice_from (Z.to_nat (rfind c (String a s) + 1)) (String a s)
  = if bool_decide (0 ≤ rfind c s) then slice_from (Z.to_nat (rfind c s + 1)) s
    else if bool_decide (a = c) then s else String a s.
Proof.
  pose proof (rfind_range c s) as Hr. simpl.
  case_bool_decide as H0.
  - replace (Z.to_nat (1 + rfind c s + 1)) with (S (Z.to_nat (rfind c s + 1)))
      by lia.
    done.
  - case_bool_decide; done.
Qed.

(** Without the separator [split] gives the string itself; with it, at
    least two pieces. *)
Lemma split_shape (c : ascii) (s : string) :
  (rfind c s = -1 → split c s = [s]) ∧
  (0 ≤ rfind c s → ∃ x y ys, split c s = x :: y :: ys).
Proof.
  induction s as [|a s [IH1 IH2]]; simpl.
  - split; [done | lia].
  - pose proof (rfind_range c s) as Hr.
    destruct (decide (rfind c s = -1)) as [Hn | Hn].
    + rewrite (IH1 Hn). rewrite Hn. simpl.
      case_bool_decide as Ha; split; try done; try lia.
      intros _. by exists "", s, [].
    + destruct IH2 as (x & y & ys & ->); [lia |].
      rewrite bool_decide_eq_true_2 by lia.
      split; [lia |]. intros _.
      case_bool_decide; eauto.
Qed.

Lemma last_split (c : ascii) (s : string) :
  last (split c s) = Some (slice_from (Z.to_nat (rfind c s + 1)) s).
Proof.
  induction s as [|a s IH]; [done |].
  rewrite slice_after_last_cons.
  pose proof (rfind_range c s) as Hr.
  destruct (split_shape c s) as [H1 H2].
  change (split c (String a s))
    with (if bool_decide (a = c) then "" :: split c s
          else match split c s with
               | [] => [String a ""]
               | x :: xs => String a x :: xs
               end).
  destruct (decide (0 ≤ rfind c s)) as [H0 | H0].
  - rewrite (bool_decide_eq_true_2 _ H0).
    destruct (H2 H0) as (x & y & ys & Hs). rewrite Hs in IH |- *.
    case_bool_decide; exact IH.
  - rewrite (bool_decide_eq_false_2 _ H0).
    assert (Hn : rfind c s = -1) by lia.
    rewrite (H1 Hn). case_bool_decide; done.
Qed.

Lemma rfind_after_separator (c : ascii) (a b : string) :
  0 ≤ rfind c (a +:+ String c b).
Proof.
  induction a as [|x a IH].
  - change (0 ≤ rfind c (String c b)). simpl.
    pose proof (rfind_range c b). repeat case_bool_decide; try lia; congruence.
  - change (0 ≤ rfind c (String x (a +:+ String c b))). simpl.
    rewrite bool_decide_eq_true_2 by done. lia.
Qed.

(** Joining a directory in front does not change the basename. *)
Lemma basename_join (dir name : string) :
  basename (dir +:+ "/" +:+ name) = basename name.
Proof.
  unfold basename. induction dir as [|x dir IH].
  - change ("" +:+ "/" +:+ name) with (String "/"%char name).
    rewrite slice_after_last_cons.
    pose proof (rfind_range "/"%char name).
    case_bool_decide as H0; [done |].
    rewrite bool_decide_eq_true_2 by done.
    replace (rfind "/"%char name) with (-1) by lia. done.
  - change (String x dir +:+ "/" +:+ name)
      with (String x (dir +:+ "/" +:+ name)).
    rewrite slice_after_last_cons.
    rewrite bool_decide_eq_true_2; [exact IH |].
    apply rfind_after_separator.
Qed.

(** X10: the label of a document is built without an exception exactly
    when the parent post exists; it is then the last segment of the stored
    name, which holds no slash, followed by the title of the post.  For a
    stored name of ordinary components under an absolute media root that
    segment is the file name under which the download view offers the
    document. *)
Theorem document_label (MEDIA_ROOT : string) (db : DB) (d : Document) :
  (Document___str__ db d = None ↔ posts db !! post d = None) ∧
  (∃ name,
     last (split "/"%char (file d)) = Some name ∧
     (∀ a b, name ≠ a +:+ String "/"%char b) ∧
     ∀ p, posts db !! post d = Some p →
          Document___str__ db d = Some (name +:+ " for " +:+ Post___str__ p)) ∧
  (absolute_clean MEDIA_ROOT = true →
   relative_clean (file d) = true →
   file_path MEDIA_ROOT d = inr (MEDIA_ROOT +:+ "/" +:+ file d) ∧
   ∀ p, posts db !! post d = Some p →
        Document___str__ db d
          = Some (basename (MEDIA_ROOT +:+ "/" +:+ file d)
                  +:+ " for " +:+ Post___str__ p)).
Proof.
  unfold Document___str__. rewrite last_split. simpl.
  fold (basename (file d)).
  split; [| split].
  - destruct (posts db !! post d); simpl; split; done.
  - exists (basename (file d)). split; [done |]. split.
    + destruct (basename_final_segment (file d)) as (dir & _ & _ & H). exact H.
    + intros p ->. done.
  - intros Hroot Hname. split; [by apply file_path_clean |].
    intros p ->. simpl. by rewrite basename_join.
Qed.

Lemma document_label_witness :
  file_path Sample.media_root Sample.notes
    = inr "/srv/media/post_documents/notes.txt" ∧
  Document___str__ Sample.db Sample.notes = Some "notes.txt for Hello".
Proof.
  destruct (document_label Sample.media_root Sample.db Sample.notes)
    as (_ & _ & H).
  destruct (H eq_refl eq_refl) as [Hpath Hlabel].
  split; [exact Hpath | exact (Hlabel Sample.hello eq_refl)].
Defined.

(** ** After a delete, after an update *)




Lemma author_or_superuser_may_view (caller : RequestUser) (p q : Post) :
  author q = author p →
  PostUpdateView.test_func caller p = true →
  PostDetailView.test_func caller q = true.
Proof.
  intros Hauthor. unfold PostUpdateView.test_func.
  rewrite PostDetailView_test_func_unfold, Hauthor.
  destruct caller as [|u]; simpl; [done |].
  intros [-> | ->]%orb_true_iff.
  - by rewrite orb_true_r.
  - by rewrite !orb_true_r.
Qed.

(** The post table after an update that passed the gates, whether or not
    the formset was accepted. *)
Lemma update_posts_passed
    (u : User) (request : Request) (pk : Z) (db : DB) (old : Post) :
  user request = AuthenticatedUser u →
  posts db !! pk = Some old →
  PostUpdateView.test_func (user request) old = true →
  method request = POST →
  PostForm.is_valid u db (POST_post request) = true →
  posts (PostUpdateView.dispatch request pk db).2
  = <[pk := PostForm.updated_instance old (POST_post request)]> (posts db).
Proof.
  intros Hu Hold Htest Hm Hform.
  unfold PostUpdateView.dispatch, get_object.
  rewrite Hu in *. rewrite Hold, Htest, Hm, Hform. simpl.
  unfold PostUpdateView.form_valid, transaction_atomic, PostForm.save.
  set (inst := PostForm.updated_instance old (POST_post request)).
  set (db1 := {| users := users db; posts := <[pk:=inst]> (posts db);
                 documents := documents db; post_seq := post_seq db;
                 document_seq := document_seq db |}).
  destruct (DocumentFormSet.is_valid (Some pk) db1 (POST_documents request)).
  - destruct (save_frame pk (POST_documents request) db1) as (_ & Hps & _).
    simpl. rewrite Hps. simpl. by rewrite insert_insert_eq.
  - done.
Qed.

(** X12: an update with a plain submission (ASCII texts, uploads with
    plain names) that passes every check answers with the success notice
    and a redirect to the post's own address, and the detail view then
    shows the edited post, with the cleaned values, to the user who made
    the edit. *)
Theorem updated_post_is_shown
    (u : User) (request : Request) (pk : Z) (db : DB) (old : Post) :
  user request = AuthenticatedUser u →
  posts db !! pk = Some old →
  PostUpdateView.test_func (user request) old = true →
  method request = POST →
  plain_submission u request db = true →
  PostForm.is_valid u db (POST_post request) = true →
  DocumentFormSet.is_valid (Some pk) db (POST_documents request) = true →
  let db' := (PostUpdateView.dispatch request pk db).2 in
  (PostUpdateView.dispatch request pk db).1
    = reply_with success "Post updated successfully!"
        (redirect (Post_get_absolute_url pk)) ∧
  PostDetailView.dispatch (AuthenticatedUser u) pk db'
    = reply (render_post_detail
               (pk, PostForm.updated_instance old (POST_post request))).
Proof.
  intros Hu Hold Htest Hm _ Hform Hset db'. subst db'. split.
  - unfold PostUpdateView.dispatch, get_object.
    rewrite Hu in *. rewrite Hold, Htest, Hm, Hform. simpl.
    unfold PostUpdateView.form_valid, transaction_atomic, PostForm.save.
    unfold DocumentFormSet.is_valid, DocumentFormSet.form_is_valid in *.
    simpl. rewrite Hset. done.
  - unfold PostDetailView.dispatch, get_object.
    rewrite (update_posts_passed u request pk db old) by done.
    rewrite lookup_insert_eq.
    rewrite Hu in Htest.
    by rewrite (author_or_superuser_may_view (AuthenticatedUser u) old
                  (PostForm.updated_instance old (POST_post request))
                  eq_refl Htest).
Qed.

Lemma updated_post_is_shown_witness :
  let db' := (PostUpdateView.dispatch Scenario.update_request_ok 1 Sample.db).2 in
  (PostUpdateView.dispatch Scenario.update_request_ok 1 Sample.db).1
    = reply_with success "Post updated successfully!"
        (redirect (Post_get_absolute_url 1)) ∧
  PostDetailView.dispatch (AuthenticatedUser Sample.alice) 1 db'
    = reply (render_post_detail
               (1, PostForm.updated_instance Sample.hello Sample.hello_edited)).
Proof.
  apply (updated_post_is_shown Sample.alice Scenario.update_request_ok 1
           Sample.db Sample.hello); reflexivity.
Defined.

(** ** The formset *)

(** X13: the blank form that [extra=1] appends to a formset neither
    changes whether the formset is accepted nor what saving it writes. *)
Theorem blank_extra_form_is_ignored
    (instance : option Z) (pk : Z) (db : DB) (forms : list DocumentFormData) :
  DocumentFormSet.is_valid instance db (forms ++ [blank_form])
    = DocumentFormSet.is_valid instance db forms ∧
  DocumentFormSet.save pk (forms ++ [blank_form]) db
    = DocumentFormSet.save pk forms db.
Proof.
  split.
  - unfold DocumentFormSet.is_valid, DocumentFormSet.bound_ids.
    rewrite forallb_app, omap_app. simpl.
    by rewrite !andb_true_r, app_nil_r.
  - unfold DocumentFormSet.save. by rewrite !foldl_app.
Qed.

Lemma save_existing_noop (pk : Z) (db : DB) (f : DocumentFormData) :
  (∀ k d, documents db !! k = Some d → post d ≠ pk) →
  DocumentFormSet.save_existing pk db f = db.
Proof.
  intros Hnone. unfold DocumentFormSet.save_existing.
  destruct (data_id f) as [k|]; [| done].
  destruct (documents db !! k) as [d|] eqn:Hk; [| done].
  by rewrite (bool_decide_eq_false_2 _ (Hnone k d Hk)).
Qed.

Lemma foldl_save_existing_noop (pk : Z) (db : DB) (forms : list DocumentFormData) :
  (∀ k d, documents db !! k = Some d → post d ≠ pk) →
  foldl (DocumentFormSet.save_existing pk) db forms = db.
Proof.
  intros Hnone. induction forms as [|f forms IH]; simpl; [done |].
  by rewrite save_existing_noop.
Qed.

Lemma size_save_new (pk : Z) (db : DB) (f : DocumentFormData) :
  size (documents (DocumentFormSet.save_new pk db f))
  = (size (documents db) + if adds_document f then 1 else 0)%nat.
Proof.
  unfold DocumentFormSet.save_new, adds_document.
  destruct (data_id f) as [k|]; simpl; [lia |].
  destruct (data_file f) as [up|]; simpl; [| lia].
  destruct (data_DELETE f); simpl; [lia |].
  rewrite map_size_insert_None; [lia |].
  apply next_pk_fresh.
Qed.

Lemma size_foldl_save_new (pk : Z) (forms : list DocumentFormData) (db : DB) :
  size (documents (foldl (DocumentFormSet.save_new pk) db forms))
  = (size (documents db)
     + length (filter (λ f, adds_document f = true) forms))%nat.
Proof.
  revert db. induction forms as [|f forms IH]; intros db; simpl; [lia |].
  rewrite IH, size_save_new, filter_cons.
  destruct (decide (adds_document f = true)) as [Hadd | Hadd].
  - rewrite Hadd. simpl. lia.
  - apply not_true_is_false in Hadd. rewrite Hadd. lia.
Qed.

(** X14: on a successful create of a plain submission (ASCII texts,
    uploads with plain names, each upload non-empty as the formset
    demands) every extra form that carries a file and is not ticked for
    deletion becomes exactly one document row; nothing else is added to or
    removed from the document table. *)
Theorem create_adds_one_document_per_file
    (u : User) (request : Request) (db : DB) :
  fk_integrity db →
  user request = AuthenticatedUser u →
  user_is_staff u = true →
  method request = POST →
  plain_submission u request db = true →
  PostForm.is_valid u db (POST_post request) = true →
  DocumentFormSet.is_valid None db (POST_documents request) = true →
  size (documents (PostCreateView.dispatch request db).2)
  = (size (documents db)
     + length (filter (λ f, adds_document f = true) (POST_documents request)))%nat.
Proof.
  intros Hfk Hu Hstaff Hm _ Hform Hset.
  unfold PostCreateView.dispatch, PostCreateView.test_func.
  rewrite Hu. simpl. rewrite Hstaff, Hm, Hform. simpl.
  unfold PostCreateView.form_valid, transaction_atomic, PostForm.save.
  unfold DocumentFormSet.is_valid, DocumentFormSet.form_is_valid in *.
  simpl. rewrite Hset. simpl.
  unfold DocumentFormSet.save.
  rewrite foldl_save_existing_noop.
  - by rewrite size_foldl_save_new.
  - simpl. intros k d Hd Heq.
    destruct (Hfk k d Hd) as [p Hp]. simpl in Hp.
    rewrite Heq, fresh_post_is_new in Hp. done.
Qed.

Lemma create_adds_one_document_per_file_witness :
  size (documents (PostCreateView.dispatch Sample.create_request_ok Sample.db).2)
  = (size (documents Sample.db) + 3)%nat.
Proof.
  apply (create_adds_one_document_per_file Sample.alice
           Sample.create_request_ok Sample.db);
    [apply Sample_fk_integrity | reflexivity ..].
Defined.
